(** * The transaction factory of the integration-test harness

    A shallow embedding of [testutil/integration/evmos/factory/build.go]:
    the four entry points of [IntegrationTxFactory] that default, estimate,
    sign and convert an Ethereum transaction, together with the properties
    the specification states about them.

    Go values are modelled as the source has them:
    - a pair of results [(v, err)] is a pair, [err] of type [error];
    - the interface type [error] is [option Err], [None] being [nil];
    - a pointer that may be nil ([*big.Int], [*common.Address],
      [*AccessList]) is an [option];
    - [uint64], [int] and [big.Int] values are [Z];
    - the collaborators of the factory (the gRPC handler, the network, the
      key, and the factory's own helpers declared in other files) are the
      fields of the class [Collaborators]; every call to one of them is
      recorded, with its arguments and its answer, in the trace of the run. *)

From Stdlib Require Import ZArith List String Bool Lia.
From Stdlib Require Import Strings.Byte.
Import ListNotations.
Local Open Scope string_scope.
Local Open Scope list_scope.
Local Open Scope Z_scope.

(** ** Errors *)

(** An error value: one made by [errors.New], or one wrapped by
    [errorsmod.Wrap] with a description. *)
Inductive Err : Type :=
| errors_New (text : string)
| wrappedError (parent : Err) (msg : string).

(** Go's [error] interface; [None] is [nil]. *)
Definition error : Type := option Err.

(** [errorsmod.Wrap(err, description)]: nil stays nil. *)
Definition errorsmod_Wrap (err : error) (description : string) : error :=
  match err with
  | None => None
  | Some e => Some (wrappedError e description)
  end.

(** The description an error was last wrapped with: the label of the step
    that reported it. *)
Definition label (e : Err) : option string :=
  match e with
  | errors_New _ => None
  | wrappedError _ msg => Some msg
  end.

(** The error and everything it wraps, outermost first: the chain that
    [errors.Is] and [errors.As] walk through [Unwrap]. *)
Fixpoint chain (e : Err) : list Err :=
  match e with
  | errors_New _ => [e]
  | wrappedError parent _ => e :: chain parent
  end.

(** The test [err != nil]. *)
Definition is_error (err : error) : bool :=
  match err with
  | Some _ => true
  | None => false
  end.

(** ** go-ethereum's [common] and [core/types] *)

Module common.

Definition AddressLength : nat := 20.
Definition HashLength : nat := 32.

(** [Address] is [[20]byte], [Hash] is [[32]byte]. *)
Definition Address : Type := list byte.
Definition Hash : Type := list byte.

(** An array composite literal [[n]byte{b0, b1, ...}]: the elements given,
    then zeroes. *)
Definition array_lit (n : nat) (elems : list byte) : list byte :=
  elems ++ repeat x00 (n - List.length elems)%nat.

(** [BytesToAddress(b)]: the last 20 bytes of [b], left-padded with zeroes. *)
Definition BytesToAddress (b : list byte) : Address :=
  let b := skipn (List.length b - AddressLength)%nat b in
  repeat x00 (AddressLength - List.length b)%nat ++ b.

End common.

Module gethtypes.

(** The transaction types of [core/types]. *)
Definition LegacyTxType : Z := 0.
Definition AccessListTxType : Z := 1.
Definition DynamicFeeTxType : Z := 2.

Record AccessTuple : Type := {
  Address : common.Address;
  StorageKeys : list common.Hash
}.

Definition AccessList : Type := list AccessTuple.

End gethtypes.

(** [big.NewInt(x)]. *)
Definition big_NewInt (x : Z) : Z := x.

(** ** The argument records of [x/evm/types] *)

Module EvmTxArgs.

(** Modelled from the spec: the declaration of [evmtypes.EvmTxArgs] is not
    among the sources. The fields are those of the data model (recipient,
    input payload, nonce, gas limit, gas price, max fee per gas and max
    priority fee per gas, access list, value), under the names the source
    uses for the ones it touches ([Input], [To], [Accesses], [GasPrice]).
    The nonce and the gas limit are numbers, the payload a byte slice, every
    other field a pointer. *)
Record t : Type := {
  Nonce : Z;
  GasLimit : Z;
  Input : list byte;
  GasFeeCap : option Z;
  GasPrice : option Z;
  Amount : option Z;
  GasTipCap : option Z;
  To : option common.Address;
  Accesses : option gethtypes.AccessList
}.

(** The zero value [evmtypes.EvmTxArgs{}]. *)
Definition zero : t := {|
  Nonce := 0; GasLimit := 0; Input := [];
  GasFeeCap := None; GasPrice := None; Amount := None; GasTipCap := None;
  To := None; Accesses := None
|}.

(** The assignment [args.Accesses = v]. *)
Definition set_Accesses (v : option gethtypes.AccessList) (a : t) : t := {|
  Nonce := Nonce a; GasLimit := GasLimit a; Input := Input a;
  GasFeeCap := GasFeeCap a; GasPrice := GasPrice a; Amount := Amount a;
  GasTipCap := GasTipCap a; To := To a; Accesses := v
|}.

(** The assignment [args.GasPrice = v]. *)
Definition set_GasPrice (v : option Z) (a : t) : t := {|
  Nonce := Nonce a; GasLimit := GasLimit a; Input := Input a;
  GasFeeCap := GasFeeCap a; GasPrice := v; Amount := Amount a;
  GasTipCap := GasTipCap a; To := To a; Accesses := Accesses a
|}.

End EvmTxArgs.

Module TransactionArgs.

(** Modelled from the spec: the declaration of [evmtypes.TransactionArgs],
    the query format of the gas estimation, is not among the sources. It has
    the four fields the source fills ([Data], [From], [To], [AccessList])
    and a field for each remaining item of the argument record, which the
    source leaves unset; every field is a pointer. *)
Record t : Type := {
  From : option common.Address;
  To : option common.Address;
  Gas : option Z;
  GasPrice : option Z;
  MaxFeePerGas : option Z;
  MaxPriorityFeePerGas : option Z;
  Value : option Z;
  Nonce : option Z;
  Data : option (list byte);
  AccessList : option gethtypes.AccessList
}.

End TransactionArgs.

(** Modelled from the spec: the answer of the gas estimation, a single
    number of gas units ([res.Gas] in the source). *)
Record EstimateGasResponse : Type := { Gas : Z }.

(** Modelled from the spec: the answer of the base-fee query
    ([baseFeeResp.BaseFee] in the source). The field is a pointer to a big
    integer and is modelled, like the pointers to the answers themselves, by
    the number it refers to: an answer whose fee pointer is nil is outside
    this type. On such an answer line 125 calls [BigInt] through the nil
    pointer and the call panics, so it returns nothing this model could
    describe. *)
Record QueryBaseFeeResponse : Type := { BaseFee : Z }.

(** [BaseFee.BigInt()]: the fee as a [*big.Int], never nil. *)
Definition BigInt (i : Z) : option Z := Some i.

(** ** The collaborators *)

(** What the factory is built over. None of these is declared in
    [build.go]: the types and the pure functions come from [x/evm/types],
    [encoding/json], go-ethereum and [server/config]; the functions over
    [World] are the outbound calls (gRPC handler, network, signer) and the
    factory's helpers of other files, which make such calls. [World] is the
    state those calls read and change. A call that returns a pointer and an
    error is modelled by the record the pointer refers to and the error. *)
Class Collaborators : Type := {
  World : Type;
  PrivKey : Type;
  MsgEthereumTx : Type;
  signing_Tx : Type;
  core_Message : Type;
  Signer : Type;
  (* config.DefaultGasCap *)
  DefaultGasCap : Z;
  (* evmtypes.MsgEthereumTx{} *)
  MsgEthereumTx_zero : MsgEthereumTx;
  (* privKey.PubKey().Address().Bytes() *)
  PubKey_Address_Bytes : PrivKey -> list byte;
  (* buildMsgEthereumTx(txArgs, fromAddr) *)
  buildMsgEthereumTx : EvmTxArgs.t -> common.Address -> MsgEthereumTx;
  (* msg.ValidateBasic() *)
  validate_basic : MsgEthereumTx -> error;
  (* json.Marshal(v) *)
  marshal : TransactionArgs.t -> list byte * error;
  (* gethtypes.LatestSignerForChainID(chainID) *)
  LatestSignerForChainID : option Z -> Signer;
  (* msg.AsMessage(signer, baseFee) *)
  as_message : MsgEthereumTx -> Signer -> option Z -> option core_Message * error;
  (* tf.populateEvmTxArgs(fromAddr, txArgs) *)
  populate : common.Address -> EvmTxArgs.t -> World -> (EvmTxArgs.t * error) * World;
  (* tf.SignMsgEthereumTx(privKey, msg) *)
  sign : PrivKey -> MsgEthereumTx -> World -> (MsgEthereumTx * error) * World;
  (* tf.buildSignedTx(msg) *)
  build_signed : MsgEthereumTx -> World -> (option signing_Tx * error) * World;
  (* tf.grpcHandler.EstimateGas(args, gasCap) *)
  estimate_gas : list byte -> Z -> World -> (EstimateGasResponse * error) * World;
  (* tf.grpcHandler.GetBaseFee() *)
  get_base_fee : World -> (QueryBaseFeeResponse * error) * World;
  (* tf.network.GetEIP155ChainID() *)
  get_chain_id : World -> option Z * World
}.

Section Factory.

Context {C : Collaborators}.

(** One call to a collaborator: its arguments and its answer. *)
Inductive Event : Type :=
| EvPopulateEvmTxArgs (from : common.Address) (txArgs : EvmTxArgs.t)
    (res : EvmTxArgs.t * error)
| EvMarshal (v : TransactionArgs.t) (res : list byte * error)
| EvEstimateGas (args : list byte) (gasCap : Z) (res : EstimateGasResponse * error)
| EvSignMsgEthereumTx (privKey : PrivKey) (msg : MsgEthereumTx)
    (res : MsgEthereumTx * error)
| EvValidateBasic (msg : MsgEthereumTx) (res : error)
| EvBuildSignedTx (msg : MsgEthereumTx) (res : option signing_Tx * error)
| EvGetBaseFee (res : QueryBaseFeeResponse * error)
| EvGetEIP155ChainID (res : option Z)
| EvAsMessage (msg : MsgEthereumTx) (signer : Signer) (baseFee : option Z)
    (res : option core_Message * error).

(** A computation of the factory: from the world before to its result, the
    world after and the calls it made, in order. *)
Definition M (A : Type) : Type := World -> A * World * list Event.

Definition ret {A : Type} (a : A) : M A := fun w => (a, w, []).

Definition bind {A B : Type} (m : M A) (k : A -> M B) : M B :=
  fun w =>
    let '(a, w1, t1) := m w in
    let '(b, w2, t2) := k a w1 in
    (b, w2, t1 ++ t2).

(** A call that changes the world, recorded by [ev]. *)
Definition call {A : Type} (f : World -> A * World) (ev : A -> Event) : M A :=
  fun w => let '(a, w1) := f w in (a, w1, [ev a]).

(** A call that does not, recorded by [ev]. *)
Definition call_pure {A : Type} (a : A) (ev : A -> Event) : M A :=
  fun w => (a, w, [ev a]).

Definition result_of {A : Type} (r : A * World * list Event) : A := fst (fst r).
Definition world_of {A : Type} (r : A * World * list Event) : World := snd (fst r).
Definition trace_of {A : Type} (r : A * World * list Event) : list Event := snd r.

End Factory.

Declare Scope factory_scope.
Delimit Scope factory_scope with factory.
Notation "x <- m ;; k" := (bind m (fun x => k))
  (at level 61, m at next level, right associativity) : factory_scope.
Notation "' pat <- m ;; k" := (bind m (fun x => match x with pat => k end))
  (at level 61, pat pattern, m at next level, right associativity) : factory_scope.
Local Open Scope factory_scope.

(** ** The calls the factory makes *)

Section Calls.

Context {C : Collaborators}.

Definition populateEvmTxArgs (from : common.Address) (txArgs : EvmTxArgs.t)
  : M (EvmTxArgs.t * error) :=
  call (populate from txArgs) (EvPopulateEvmTxArgs from txArgs).

Definition SignMsgEthereumTx (privKey : PrivKey) (msg : MsgEthereumTx)
  : M (MsgEthereumTx * error) :=
  call (sign privKey msg) (EvSignMsgEthereumTx privKey msg).

Definition buildSignedTx (msg : MsgEthereumTx) : M (option signing_Tx * error) :=
  call (build_signed msg) (EvBuildSignedTx msg).

Definition EstimateGas (args : list byte) (gasCap : Z)
  : M (EstimateGasResponse * error) :=
  call (estimate_gas args gasCap) (EvEstimateGas args gasCap).

Definition GetBaseFee : M (QueryBaseFeeResponse * error) :=
  call get_base_fee EvGetBaseFee.

Definition GetEIP155ChainID : M (option Z) :=
  call get_chain_id EvGetEIP155ChainID.

Definition json_Marshal (v : TransactionArgs.t) : M (list byte * error) :=
  call_pure (marshal v) (EvMarshal v).

Definition ValidateBasic (msg : MsgEthereumTx) : M error :=
  call_pure (validate_basic msg) (EvValidateBasic msg).

Definition AsMessage (msg : MsgEthereumTx) (signer : Signer) (baseFee : option Z)
  : M (option core_Message * error) :=
  call_pure (as_message msg signer baseFee) (EvAsMessage msg signer baseFee).

End Calls.

(** ** build.go *)

Section Build.

Context {C : Collaborators}.

(** [GenerateDefaultTxTypeArgs(sender, txType)]. The cases of the switch are
    tried in the order of the source. *)
Definition GenerateDefaultTxTypeArgs (sender : common.Address) (txType : Z)
  : M (EvmTxArgs.t * error) :=
  let defaultArgs := EvmTxArgs.zero in
  if txType =? gethtypes.DynamicFeeTxType then
    populateEvmTxArgs sender defaultArgs
  else if txType =? gethtypes.AccessListTxType then
    let defaultArgs :=
      EvmTxArgs.set_Accesses
        (Some [ {| gethtypes.Address := sender;
                   gethtypes.StorageKeys :=
                     [ common.array_lit common.HashLength [x00] ] |} ])
        defaultArgs in
    let defaultArgs :=
      EvmTxArgs.set_GasPrice (Some (big_NewInt 1000000000)) defaultArgs in
    populateEvmTxArgs sender defaultArgs
  else if txType =? gethtypes.LegacyTxType then
    let defaultArgs :=
      EvmTxArgs.set_GasPrice (Some (big_NewInt 1000000000)) defaultArgs in
    populateEvmTxArgs sender defaultArgs
  else
    ret (EvmTxArgs.zero, Some (errors_New "tx type not supported")).

(** The composite literal [evmtypes.TransactionArgs{Data: ..., From: ...,
    To: ..., AccessList: ...}] of [EstimateGasLimit]. [Data] points to the
    [Input] field of the arguments, so it is never nil. *)
Definition estimate_query (from : option common.Address) (txArgs : EvmTxArgs.t)
  : TransactionArgs.t := {|
  TransactionArgs.From := from;
  TransactionArgs.To := EvmTxArgs.To txArgs;
  TransactionArgs.Gas := None;
  TransactionArgs.GasPrice := None;
  TransactionArgs.MaxFeePerGas := None;
  TransactionArgs.MaxPriorityFeePerGas := None;
  TransactionArgs.Value := None;
  TransactionArgs.Nonce := None;
  TransactionArgs.Data := Some (EvmTxArgs.Input txArgs);
  TransactionArgs.AccessList := EvmTxArgs.Accesses txArgs
|}.

(** [EstimateGasLimit(from, txArgs)]; [txArgs] is the record the pointer
    refers to. *)
Definition EstimateGasLimit (from : option common.Address) (txArgs : EvmTxArgs.t)
  : M (Z * error) :=
  '(args, err) <- json_Marshal (estimate_query from txArgs) ;;
  match err with
  | Some _ => ret (0, errorsmod_Wrap err "failed to marshal tx args")
  | None =>
    '(res, err) <- EstimateGas args DefaultGasCap ;;
    match err with
    | Some _ => ret (0, errorsmod_Wrap err "failed to estimate gas")
    | None =>
      let gas := Gas res in
      ret (gas, None)
    end
  end.

(** [GenerateMsgEthereumTx(privKey, txArgs)]. *)
Definition GenerateMsgEthereumTx (privKey : PrivKey) (txArgs : EvmTxArgs.t)
  : M (MsgEthereumTx * error) :=
  let fromAddr := common.BytesToAddress (PubKey_Address_Bytes privKey) in
  '(txArgs, err) <- populateEvmTxArgs fromAddr txArgs ;;
  match err with
  | Some _ =>
    ret (MsgEthereumTx_zero, errorsmod_Wrap err "failed to populate tx args")
  | None =>
    let msg := buildMsgEthereumTx txArgs fromAddr in
    ret (msg, None)
  end.

(** [GenerateSignedMsgEthereumTx(privKey, txArgs)]. *)
Definition GenerateSignedMsgEthereumTx (privKey : PrivKey) (txArgs : EvmTxArgs.t)
  : M (MsgEthereumTx * error) :=
  '(msgEthereumTx, err) <- GenerateMsgEthereumTx privKey txArgs ;;
  match err with
  | Some _ =>
    ret (MsgEthereumTx_zero, errorsmod_Wrap err "failed to create ethereum tx")
  | None => SignMsgEthereumTx privKey msgEthereumTx
  end.

(** [GenerateSignedEthTx(privKey, txArgs)]. *)
Definition GenerateSignedEthTx (privKey : PrivKey) (txArgs : EvmTxArgs.t)
  : M (option signing_Tx * error) :=
  '(signedMsg, err) <- GenerateSignedMsgEthereumTx privKey txArgs ;;
  match err with
  | Some _ =>
    ret (None, errorsmod_Wrap err "failed to generate signed MsgEthereumTx")
  | None =>
    err <- ValidateBasic signedMsg ;;
    match err with
    | Some _ => ret (None, errorsmod_Wrap err "failed to validate transaction")
    | None => buildSignedTx signedMsg
    end
  end.

(** [GenerateGethCoreMsg(privKey, txArgs)]. *)
Definition GenerateGethCoreMsg (privKey : PrivKey) (txArgs : EvmTxArgs.t)
  : M (option core_Message * error) :=
  '(msg, err) <- GenerateMsgEthereumTx privKey txArgs ;;
  match err with
  | Some _ => ret (None, errorsmod_Wrap err "failed to generate ethereum tx")
  | None =>
    '(signedMsg, err) <- SignMsgEthereumTx privKey msg ;;
    match err with
    | Some _ => ret (None, errorsmod_Wrap err "failed to sign ethereum tx")
    | None =>
      '(baseFeeResp, err) <- GetBaseFee ;;
      match err with
      | Some _ => ret (None, errorsmod_Wrap err "failed to get base fee")
      | None =>
        chainID <- GetEIP155ChainID ;;
        let signer := LatestSignerForChainID chainID in
        AsMessage signedMsg signer (BigInt (BaseFee baseFeeResp))
      end
    end
  end.

End Build.

(** ** Reading a trace *)

(** The steps of the pipelines. *)
Inductive Stage : Type :=
| Defaulting
| Serialization
| Estimation
| Signing
| Validation
| BaseFeeQuery
| ChainIDLookup
| Conversion.

Definition Stage_eqb (a b : Stage) : bool :=
  match a, b with
  | Defaulting, Defaulting
  | Serialization, Serialization
  | Estimation, Estimation
  | Signing, Signing
  | Validation, Validation
  | BaseFeeQuery, BaseFeeQuery
  | ChainIDLookup, ChainIDLookup
  | Conversion, Conversion => true
  | _, _ => false
  end.

(** [b] never occurs in [st] unless [a] occurred earlier ([seen] tells
    whether it already has). *)
Fixpoint preceded_from (seen : bool) (a b : Stage) (st : list Stage) : bool :=
  match st with
  | [] => true
  | s :: st' =>
    (if Stage_eqb s b then seen else true)
    && preceded_from (seen || Stage_eqb s a) a b st'
  end.

Definition precedes (a b : Stage) (st : list Stage) : bool :=
  preceded_from false a b st.

(** [p] is an initial segment of [l]. *)
Fixpoint is_prefix (p l : list Stage) : bool :=
  match p, l with
  | [], _ => true
  | x :: p', y :: l' => Stage_eqb x y && is_prefix p' l'
  | _ :: _, [] => false
  end.

(** The stages of the two pipelines, in the order of the source. *)
Definition signed_tx_pipeline : list Stage :=
  [Defaulting; Signing; Validation; Conversion].

Definition core_msg_pipeline : list Stage :=
  [Defaulting; Signing; BaseFeeQuery; ChainIDLookup; Conversion].

(** The order the stages are said to follow in both pipelines: defaulting
    before signing, signing before validation, validation before any
    conversion. *)
Definition ordering_guarantee (st : list Stage) : bool :=
  precedes Defaulting Signing st
  && precedes Signing Validation st
  && precedes Validation Conversion st.

Section Traces.

Context {C : Collaborators}.

(** The step an event belongs to. The conversions are [buildSignedTx] and
    [AsMessage]. *)
Definition stage_of (e : Event) : Stage :=
  match e with
  | EvPopulateEvmTxArgs _ _ _ => Defaulting
  | EvMarshal _ _ => Serialization
  | EvEstimateGas _ _ _ => Estimation
  | EvSignMsgEthereumTx _ _ _ => Signing
  | EvValidateBasic _ _ => Validation
  | EvBuildSignedTx _ _ => Conversion
  | EvGetBaseFee _ => BaseFeeQuery
  | EvGetEIP155ChainID _ => ChainIDLookup
  | EvAsMessage _ _ _ _ => Conversion
  end.

Definition stages (tr : list Event) : list Stage := map stage_of tr.

(** The error a call answered with, [None] when it succeeded. *)
Definition failure_of (e : Event) : error :=
  match e with
  | EvPopulateEvmTxArgs _ _ res => snd res
  | EvMarshal _ res => snd res
  | EvEstimateGas _ _ res => snd res
  | EvSignMsgEthereumTx _ _ res => snd res
  | EvValidateBasic _ res => res
  | EvBuildSignedTx _ res => snd res
  | EvGetBaseFee res => snd res
  | EvGetEIP155ChainID _ => None
  | EvAsMessage _ _ _ res => snd res
  end.

Definition failed (e : Event) : bool :=
  match failure_of e with Some _ => true | None => false end.

(** The arguments of the calls to the shared defaulting path. *)
Definition defaulting_calls (tr : list Event)
  : list (common.Address * EvmTxArgs.t) :=
  flat_map (fun e =>
    match e with
    | EvPopulateEvmTxArgs from txArgs _ => [(from, txArgs)]
    | _ => []
    end) tr.

(** The values handed to the serializer. *)
Definition marshalled (tr : list Event) : list TransactionArgs.t :=
  flat_map (fun e =>
    match e with
    | EvMarshal v _ => [v]
    | _ => []
    end) tr.

(** The arguments of the calls to the handler's gas estimation. *)
Definition estimate_calls (tr : list Event) : list (list byte * Z) :=
  flat_map (fun e =>
    match e with
    | EvEstimateGas args gasCap _ => [(args, gasCap)]
    | _ => []
    end) tr.

(** The messages validated, each with the verdict. *)
Definition validations (tr : list Event) : list (MsgEthereumTx * error) :=
  flat_map (fun e =>
    match e with
    | EvValidateBasic msg res => [(msg, res)]
    | _ => []
    end) tr.

(** The last call of a trace. *)
Fixpoint last_event (tr : list Event) : option Event :=
  match tr with
  | [] => None
  | [e] => Some e
  | _ :: tr' => last_event tr'
  end.

(** Every call but the last one succeeded. *)
Definition only_last_may_fail (tr : list Event) : bool :=
  forallb (fun e => negb (failed e)) (removelast tr).

(** No partial result with an error: a nil error, or a nil value. *)
Definition exclusive {A : Type} (r : option A * error) : Prop :=
  snd r <> None -> fst r = None.

(** The error of every failed call of a run can be found in the chain of
    the error the run returns. *)
Definition reports_failures {A : Type} (r : A * error * World * list Event)
  : Prop :=
  forall ev e0,
    In ev (trace_of r) ->
    failure_of ev = Some e0 ->
    exists e, snd (result_of r) = Some e /\ In e0 (chain e).

End Traces.

(** ** The runs of each entry point

    Every run of an entry point is one of the cases below: which call
    failed, if any, and with it the result, the world and the trace. *)

Section Runs.

Context {C : Collaborators}.

(** [common.BytesToAddress(privKey.PubKey().Address().Bytes())]. *)
Definition sender_of (privKey : PrivKey) : common.Address :=
  common.BytesToAddress (PubKey_Address_Bytes privKey).

Inductive EstimateGasLimit_run (from : option common.Address)
  (txArgs : EvmTxArgs.t) (w : World) : Z * error * World * list Event -> Prop :=
| estimate_marshal_fails bz e :
    marshal (estimate_query from txArgs) = (bz, Some e) ->
    EstimateGasLimit_run from txArgs w
      ((0, Some (wrappedError e "failed to marshal tx args")), w,
       [EvMarshal (estimate_query from txArgs) (bz, Some e)])
| estimate_query_fails bz res e w1 :
    marshal (estimate_query from txArgs) = (bz, None) ->
    estimate_gas bz DefaultGasCap w = ((res, Some e), w1) ->
    EstimateGasLimit_run from txArgs w
      ((0, Some (wrappedError e "failed to estimate gas")), w1,
       [EvMarshal (estimate_query from txArgs) (bz, None);
        EvEstimateGas bz DefaultGasCap (res, Some e)])
| estimate_done bz res w1 :
    marshal (estimate_query from txArgs) = (bz, None) ->
    estimate_gas bz DefaultGasCap w = ((res, None), w1) ->
    EstimateGasLimit_run from txArgs w
      ((Gas res, None), w1,
       [EvMarshal (estimate_query from txArgs) (bz, None);
        EvEstimateGas bz DefaultGasCap (res, None)]).

Inductive MsgEthereumTx_run (privKey : PrivKey) (txArgs : EvmTxArgs.t)
  (w : World) : MsgEthereumTx * error * World * list Event -> Prop :=
| msg_defaulting_fails a e w1 :
    populate (sender_of privKey) txArgs w = ((a, Some e), w1) ->
    MsgEthereumTx_run privKey txArgs w
      ((MsgEthereumTx_zero, Some (wrappedError e "failed to populate tx args")),
       w1,
       [EvPopulateEvmTxArgs (sender_of privKey) txArgs (a, Some e)])
| msg_built a w1 :
    populate (sender_of privKey) txArgs w = ((a, None), w1) ->
    MsgEthereumTx_run privKey txArgs w
      ((buildMsgEthereumTx a (sender_of privKey), None), w1,
       [EvPopulateEvmTxArgs (sender_of privKey) txArgs (a, None)]).

Inductive SignedMsg_run (privKey : PrivKey) (txArgs : EvmTxArgs.t)
  (w : World) : MsgEthereumTx * error * World * list Event -> Prop :=
| signed_msg_defaulting_fails a e w1 :
    populate (sender_of privKey) txArgs w = ((a, Some e), w1) ->
    SignedMsg_run privKey txArgs w
      ((MsgEthereumTx_zero,
        Some (wrappedError
                (wrappedError e "failed to populate tx args")
                "failed to create ethereum tx")),
       w1,
       [EvPopulateEvmTxArgs (sender_of privKey) txArgs (a, Some e)])
| signed_msg_signed a w1 r w2 :
    populate (sender_of privKey) txArgs w = ((a, None), w1) ->
    sign privKey (buildMsgEthereumTx a (sender_of privKey)) w1 = (r, w2) ->
    SignedMsg_run privKey txArgs w
      (r, w2,
       [EvPopulateEvmTxArgs (sender_of privKey) txArgs (a, None);
        EvSignMsgEthereumTx privKey (buildMsgEthereumTx a (sender_of privKey))
          r]).

Inductive SignedEthTx_run (privKey : PrivKey) (txArgs : EvmTxArgs.t)
  (w : World) : option signing_Tx * error * World * list Event -> Prop :=
| signed_defaulting_fails a e w1 :
    populate (sender_of privKey) txArgs w = ((a, Some e), w1) ->
    SignedEthTx_run privKey txArgs w
      ((None,
        Some (wrappedError
                (wrappedError
                   (wrappedError e "failed to populate tx args")
                   "failed to create ethereum tx")
                "failed to generate signed MsgEthereumTx")),
       w1,
       [EvPopulateEvmTxArgs (sender_of privKey) txArgs (a, Some e)])
| signed_signing_fails a w1 m e w2 :
    populate (sender_of privKey) txArgs w = ((a, None), w1) ->
    sign privKey (buildMsgEthereumTx a (sender_of privKey)) w1
      = ((m, Some e), w2) ->
    SignedEthTx_run privKey txArgs w
      ((None, Some (wrappedError e "failed to generate signed MsgEthereumTx")),
       w2,
       [EvPopulateEvmTxArgs (sender_of privKey) txArgs (a, None);
        EvSignMsgEthereumTx privKey (buildMsgEthereumTx a (sender_of privKey))
          (m, Some e)])
| signed_validation_fails a w1 m w2 e :
    populate (sender_of privKey) txArgs w = ((a, None), w1) ->
    sign privKey (buildMsgEthereumTx a (sender_of privKey)) w1
      = ((m, None), w2) ->
    validate_basic m = Some e ->
    SignedEthTx_run privKey txArgs w
      ((None, Some (wrappedError e "failed to validate transaction")),
       w2,
       [EvPopulateEvmTxArgs (sender_of privKey) txArgs (a, None);
        EvSignMsgEthereumTx privKey (buildMsgEthereumTx a (sender_of privKey))
          (m, None);
        EvValidateBasic m (Some e)])
| signed_converted a w1 m w2 r w3 :
    populate (sender_of privKey) txArgs w = ((a, None), w1) ->
    sign privKey (buildMsgEthereumTx a (sender_of privKey)) w1
      = ((m, None), w2) ->
    validate_basic m = None ->
    build_signed m w2 = (r, w3) ->
    SignedEthTx_run privKey txArgs w
      (r, w3,
       [EvPopulateEvmTxArgs (sender_of privKey) txArgs (a, None);
        EvSignMsgEthereumTx privKey (buildMsgEthereumTx a (sender_of privKey))
          (m, None);
        EvValidateBasic m None;
        EvBuildSignedTx m r]).

Inductive GethCoreMsg_run (privKey : PrivKey) (txArgs : EvmTxArgs.t)
  (w : World) : option core_Message * error * World * list Event -> Prop :=
| core_defaulting_fails a e w1 :
    populate (sender_of privKey) txArgs w = ((a, Some e), w1) ->
    GethCoreMsg_run privKey txArgs w
      ((None,
        Some (wrappedError
                (wrappedError e "failed to populate tx args")
                "failed to generate ethereum tx")),
       w1,
       [EvPopulateEvmTxArgs (sender_of privKey) txArgs (a, Some e)])
| core_signing_fails a w1 m e w2 :
    populate (sender_of privKey) txArgs w = ((a, None), w1) ->
    sign privKey (buildMsgEthereumTx a (sender_of privKey)) w1
      = ((m, Some e), w2) ->
    GethCoreMsg_run privKey txArgs w
      ((None, Some (wrappedError e "failed to sign ethereum tx")),
       w2,
       [EvPopulateEvmTxArgs (sender_of privKey) txArgs (a, None);
        EvSignMsgEthereumTx privKey (buildMsgEthereumTx a (sender_of privKey))
          (m, Some e)])
| core_base_fee_fails a w1 m w2 b e w3 :
    populate (sender_of privKey) txArgs w = ((a, None), w1) ->
    sign privKey (buildMsgEthereumTx a (sender_of privKey)) w1
      = ((m, None), w2) ->
    get_base_fee w2 = ((b, Some e), w3) ->
    GethCoreMsg_run privKey txArgs w
      ((None, Some (wrappedError e "failed to get base fee")),
       w3,
       [EvPopulateEvmTxArgs (sender_of privKey) txArgs (a, None);
        EvSignMsgEthereumTx privKey (buildMsgEthereumTx a (sender_of privKey))
          (m, None);
        EvGetBaseFee (b, Some e)])
| core_converted a w1 m w2 b w3 chainID w4 :
    populate (sender_of privKey) txArgs w = ((a, None), w1) ->
    sign privKey (buildMsgEthereumTx a (sender_of privKey)) w1
      = ((m, None), w2) ->
    get_base_fee w2 = ((b, None), w3) ->
    get_chain_id w3 = (chainID, w4) ->
    GethCoreMsg_run privKey txArgs w
      (as_message m (LatestSignerForChainID chainID) (BigInt (BaseFee b)),
       w4,
       [EvPopulateEvmTxArgs (sender_of privKey) txArgs (a, None);
        EvSignMsgEthereumTx privKey (buildMsgEthereumTx a (sender_of privKey))
          (m, None);
        EvGetBaseFee (b, None);
        EvGetEIP155ChainID chainID;
        EvAsMessage m (LatestSignerForChainID chainID) (BigInt (BaseFee b))
          (as_message m (LatestSignerForChainID chainID) (BigInt (BaseFee b)))]).

End Runs.

(** ** A test double

    Collaborators that compute, with switches for the failures the factory
    has to handle. The world is the next nonce of the sender. *)

Module Stub.

Record Msg : Type := {
  args : EvmTxArgs.t;
  from : common.Address;
  signature : option (list byte)
}.

Definition Msg_zero : Msg :=
  {| args := EvmTxArgs.zero; from := []; signature := None |}.

Record CoreMsg : Type := {
  core_msg : Msg;
  core_chain : option Z;
  core_base_fee : option Z
}.

Record Faults : Type := {
  defaulting_fails : bool;
  marshal_fails : bool;
  estimation_fails : bool;
  signing_fails : bool;
  base_fee_fails : bool;
  builder_fails : bool;
  recovery_fails : bool
}.

Definition no_faults : Faults := {|
  defaulting_fails := false; marshal_fails := false;
  estimation_fails := false; signing_fails := false;
  base_fee_fails := false; builder_fails := false; recovery_fails := false
|}.

(** The nonce comes from the world, the gas limit is the cost of a plain
    transfer; a field the caller set is kept. *)
Definition fill (a : EvmTxArgs.t) (nonce : nat) : EvmTxArgs.t := {|
  EvmTxArgs.Nonce :=
    if EvmTxArgs.Nonce a =? 0 then Z.of_nat nonce else EvmTxArgs.Nonce a;
  EvmTxArgs.GasLimit :=
    if EvmTxArgs.GasLimit a =? 0 then 21000 else EvmTxArgs.GasLimit a;
  EvmTxArgs.Input := EvmTxArgs.Input a;
  EvmTxArgs.GasFeeCap := EvmTxArgs.GasFeeCap a;
  EvmTxArgs.GasPrice := EvmTxArgs.GasPrice a;
  EvmTxArgs.Amount := EvmTxArgs.Amount a;
  EvmTxArgs.GasTipCap := EvmTxArgs.GasTipCap a;
  EvmTxArgs.To := EvmTxArgs.To a;
  EvmTxArgs.Accesses := EvmTxArgs.Accesses a
|}.

Definition stub_populate (f : Faults) (_ : common.Address) (a : EvmTxArgs.t)
  (w : nat) : EvmTxArgs.t * error * nat :=
  if defaulting_fails f
  then ((EvmTxArgs.zero, Some (errors_New "account not found")), w)
  else ((fill a w, None), S w).

(** A transferred value must not be negative. *)
Definition stub_validate (m : Msg) : error :=
  match EvmTxArgs.Amount (args m) with
  | Some v =>
    if v <? 0 then Some (errors_New "amount cannot be negative") else None
  | None => None
  end.

Definition stub_marshal (f : Faults) (v : TransactionArgs.t)
  : list byte * error :=
  if marshal_fails f
  then ([], Some (errors_New "json: unsupported value"))
  else (match TransactionArgs.From v with Some a => a | None => [] end
          ++ match TransactionArgs.To v with Some a => a | None => [] end
          ++ match TransactionArgs.Data v with Some d => d | None => [] end,
        None).

Definition stub_estimate (f : Faults) (bz : list byte) (gasCap : Z) (w : nat)
  : EstimateGasResponse * error * nat :=
  if estimation_fails f
  then (({| Gas := 12345 |}, Some (errors_New "execution reverted")), w)
  else (({| Gas := Z.min gasCap (21000 + 16 * Z.of_nat (List.length bz)) |},
         None), w).

Definition stub_sign (f : Faults) (key : list byte) (m : Msg) (w : nat)
  : Msg * error * nat :=
  if signing_fails f
  then ((Msg_zero, Some (errors_New "invalid private key")), w)
  else (({| args := args m; from := from m; signature := Some key |}, None), w).

Definition stub_base_fee (f : Faults) (w : nat)
  : QueryBaseFeeResponse * error * nat :=
  if base_fee_fails f
  then (({| BaseFee := 0 |}, Some (errors_New "connection refused")), w)
  else (({| BaseFee := 7 |}, None), w).

Definition stub_build_signed (f : Faults) (m : Msg) (w : nat)
  : option Msg * error * nat :=
  if builder_fails f
  then ((None, Some (errors_New "unsupported builder")), w)
  else ((Some m, None), w).

(** As go-ethereum's [Transaction.AsMessage], which ends in
    [msg.from, err = Sender(s, tx); return msg, err]: when the sender cannot
    be recovered the message built so far comes back with the error. *)
Definition stub_as_message (f : Faults) (m : Msg) (signer : option Z)
  (baseFee : option Z) : option CoreMsg * error :=
  let msg :=
    {| core_msg := m; core_chain := signer; core_base_fee := baseFee |} in
  if recovery_fails f
  then (Some msg, Some (errors_New "invalid chain id for signer"))
  else (Some msg, None).

Definition stub (f : Faults) : Collaborators := {|
  World := nat;
  PrivKey := list byte;
  MsgEthereumTx := Msg;
  signing_Tx := Msg;
  core_Message := CoreMsg;
  Signer := option Z;
  DefaultGasCap := 25000000;
  MsgEthereumTx_zero := Msg_zero;
  PubKey_Address_Bytes := fun key => key;
  buildMsgEthereumTx := fun a sender =>
    {| args := a; from := sender; signature := None |};
  validate_basic := stub_validate;
  marshal := stub_marshal f;
  LatestSignerForChainID := fun chainID => chainID;
  as_message := stub_as_message f;
  populate := stub_populate f;
  sign := stub_sign f;
  build_signed := stub_build_signed f;
  estimate_gas := stub_estimate f;
  get_base_fee := stub_base_fee f;
  get_chain_id := fun w => (Some 9000, w)
|}.

(** A key, the address it stands for, and two argument records. *)
Definition key : list byte := ["a"%byte; "b"%byte; "c"%byte].

Definition transfer : EvmTxArgs.t := {|
  EvmTxArgs.Nonce := 0; EvmTxArgs.GasLimit := 0; EvmTxArgs.Input := [];
  EvmTxArgs.GasFeeCap := None; EvmTxArgs.GasPrice := Some 1000000000;
  EvmTxArgs.Amount := Some 5; EvmTxArgs.GasTipCap := None;
  EvmTxArgs.To := Some (common.BytesToAddress ["x"%byte]);
  EvmTxArgs.Accesses := None
|}.

Definition negative_transfer : EvmTxArgs.t := {|
  EvmTxArgs.Nonce := 0; EvmTxArgs.GasLimit := 0; EvmTxArgs.Input := [];
  EvmTxArgs.GasFeeCap := None; EvmTxArgs.GasPrice := Some 1000000000;
  EvmTxArgs.Amount := Some (-1); EvmTxArgs.GasTipCap := None;
  EvmTxArgs.To := Some (common.BytesToAddress ["x"%byte]);
  EvmTxArgs.Accesses := None
|}.

Definition with_marshal_failing : Faults := {|
  defaulting_fails := false; marshal_fails := true;
  estimation_fails := false; signing_fails := false;
  base_fee_fails := false; builder_fails := false; recovery_fails := false
|}.

Definition with_estimation_failing : Faults := {|
  defaulting_fails := false; marshal_fails := false;
  estimation_fails := true; signing_fails := false;
  base_fee_fails := false; builder_fails := false; recovery_fails := false
|}.

Definition with_base_fee_failing : Faults := {|
  defaulting_fails := false; marshal_fails := false;
  estimation_fails := false; signing_fails := false;
  base_fee_fails := true; builder_fails := false; recovery_fails := false
|}.

Definition with_builder_failing : Faults := {|
  defaulting_fails := false; marshal_fails := false;
  estimation_fails := false; signing_fails := false;
  base_fee_fails := false; builder_fails := true; recovery_fails := false
|}.

Definition with_recovery_failing : Faults := {|
  defaulting_fails := false; marshal_fails := false;
  estimation_fails := false; signing_fails := false;
  base_fee_fails := false; builder_fails := false; recovery_fails := true
|}.

Definition with_signing_failing : Faults := {|
  defaulting_fails := false; marshal_fails := false;
  estimation_fails := false; signing_fails := true;
  base_fee_fails := false; builder_fails := false; recovery_fails := false
|}.

Definition with_defaulting_failing : Faults := {|
  defaulting_fails := true; marshal_fails := false;
  estimation_fails := false; signing_fails := false;
  base_fee_fails := false; builder_fails := false; recovery_fails := false
|}.

End Stub.

(** * Properties *)

(** ** The monad *)

Section Monad_laws.

Context {C : Collaborators}.

Lemma bind_ret_l {A B : Type} (a : A) (k : A -> M B) (w : World) :
  bind (ret a) k w = k a w.
Proof.
  unfold bind, ret. destruct (k a w) as [[b w2] t2]. reflexivity.
Qed.

Lemma bind_ret_r {A : Type} (m : M A) (w : World) :
  bind m ret w = m w.
Proof.
  unfold bind, ret. destruct (m w) as [[a w1] t1].
  now rewrite app_nil_r.
Qed.

Lemma bind_assoc {A B D : Type} (m : M A) (k : A -> M B) (h : B -> M D)
  (w : World) :
  bind (bind m k) h w = bind m (fun a => bind (k a) h) w.
Proof.
  unfold bind. destruct (m w) as [[a w1] t1].
  destruct (k a w1) as [[b w2] t2].
  destruct (h b w2) as [[d w3] t3].
  now rewrite app_assoc.
Qed.

End Monad_laws.

(** ** Every run is one of the listed cases *)

Section Run_lemmas.

Context {C : Collaborators}.

Ltac unfold_calls :=
  unfold populateEvmTxArgs, SignMsgEthereumTx, buildSignedTx, EstimateGas,
    GetBaseFee, GetEIP155ChainID, json_Marshal, ValidateBasic, AsMessage,
    bind, call, call_pure, ret.

Lemma EstimateGasLimit_runs (from : option common.Address)
  (txArgs : EvmTxArgs.t) (w : World) :
  EstimateGasLimit_run from txArgs w (EstimateGasLimit from txArgs w).
Proof.
  unfold EstimateGasLimit. unfold_calls.
  destruct (marshal (estimate_query from txArgs)) as [bz [e|]] eqn:Hm.
  - cbn [app]. now apply estimate_marshal_fails.
  - destruct (estimate_gas bz DefaultGasCap w) as [[res [e|]] w1] eqn:He; cbn [app].
    + now apply estimate_query_fails.
    + now apply estimate_done.
Qed.

Lemma GenerateMsgEthereumTx_runs (privKey : PrivKey) (txArgs : EvmTxArgs.t)
  (w : World) :
  MsgEthereumTx_run privKey txArgs w (GenerateMsgEthereumTx privKey txArgs w).
Proof.
  unfold GenerateMsgEthereumTx. unfold_calls. fold (sender_of privKey).
  destruct (populate (sender_of privKey) txArgs w) as [[a [e|]] w1] eqn:Hp; cbn [app].
  - now apply msg_defaulting_fails.
  - now apply msg_built.
Qed.

Lemma GenerateSignedMsgEthereumTx_runs (privKey : PrivKey)
  (txArgs : EvmTxArgs.t) (w : World) :
  SignedMsg_run privKey txArgs w (GenerateSignedMsgEthereumTx privKey txArgs w).
Proof.
  unfold GenerateSignedMsgEthereumTx, GenerateMsgEthereumTx.
  unfold_calls. fold (sender_of privKey).
  destruct (populate (sender_of privKey) txArgs w) as [[a [e|]] w1] eqn:Hp;
    cbn [app].
  - now apply signed_msg_defaulting_fails.
  - destruct (sign privKey (buildMsgEthereumTx a (sender_of privKey)) w1)
      as [r w2] eqn:Hs; cbn [app].
    now apply signed_msg_signed with (w1 := w1).
Qed.

Lemma GenerateSignedEthTx_runs (privKey : PrivKey) (txArgs : EvmTxArgs.t)
  (w : World) :
  SignedEthTx_run privKey txArgs w (GenerateSignedEthTx privKey txArgs w).
Proof.
  unfold GenerateSignedEthTx, GenerateSignedMsgEthereumTx, GenerateMsgEthereumTx.
  unfold_calls. fold (sender_of privKey).
  destruct (populate (sender_of privKey) txArgs w) as [[a [e|]] w1] eqn:Hp; cbn [app].
  - now apply signed_defaulting_fails.
  - destruct (sign privKey (buildMsgEthereumTx a (sender_of privKey)) w1)
      as [[m [e|]] w2] eqn:Hs; cbn [app].
    + now apply signed_signing_fails with (w1 := w1).
    + destruct (validate_basic m) as [e|] eqn:Hv; cbn [app].
      * now apply signed_validation_fails with (w1 := w1).
      * destruct (build_signed m w2) as [r w3] eqn:Hb; cbn [app].
        now apply signed_converted with (w1 := w1) (w2 := w2).
Qed.

Lemma GenerateGethCoreMsg_runs (privKey : PrivKey) (txArgs : EvmTxArgs.t)
  (w : World) :
  GethCoreMsg_run privKey txArgs w (GenerateGethCoreMsg privKey txArgs w).
Proof.
  unfold GenerateGethCoreMsg, GenerateMsgEthereumTx.
  unfold_calls. fold (sender_of privKey).
  destruct (populate (sender_of privKey) txArgs w) as [[a [e|]] w1] eqn:Hp; cbn [app].
  - now apply core_defaulting_fails.
  - destruct (sign privKey (buildMsgEthereumTx a (sender_of privKey)) w1)
      as [[m [e|]] w2] eqn:Hs; cbn [app].
    + now apply core_signing_fails with (w1 := w1).
    + destruct (get_base_fee w2) as [[b [e|]] w3] eqn:Hf; cbn [app].
      * now apply core_base_fee_fails with (w1 := w1) (w2 := w2).
      * destruct (get_chain_id w3) as [chainID w4] eqn:Hc; cbn [app].
        now apply core_converted with (w1 := w1) (w2 := w2) (w3 := w3).
Qed.

End Run_lemmas.

(** ** Default arguments per transaction type *)

Section Default_args.

Context {C : Collaborators}.

Lemma populateEvmTxArgs_trace (from : common.Address) (txArgs : EvmTxArgs.t)
  (w : World) :
  defaulting_calls (trace_of (populateEvmTxArgs from txArgs w))
  = [(from, txArgs)].
Proof.
  unfold populateEvmTxArgs, call, trace_of.
  destruct (populate from txArgs w) as [r w1]. reflexivity.
Qed.

(** C1. With type Legacy or AccessList the argument record handed to the
    shared defaulting path has its gas price set to exactly 1e9; with type
    DynamicFee it has no gas price, no fee cap and no tip cap. In each case
    the run is the run of the shared defaulting path on that record, which
    is its only call. *)
Theorem default_gas_price (sender : common.Address) (w : World) :
  (exists txArgs,
     GenerateDefaultTxTypeArgs sender gethtypes.LegacyTxType w
       = populateEvmTxArgs sender txArgs w
     /\ defaulting_calls
          (trace_of (GenerateDefaultTxTypeArgs sender gethtypes.LegacyTxType w))
        = [(sender, txArgs)]
     /\ EvmTxArgs.GasPrice txArgs = Some 1000000000)
  /\ (exists txArgs,
        GenerateDefaultTxTypeArgs sender gethtypes.AccessListTxType w
          = populateEvmTxArgs sender txArgs w
        /\ defaulting_calls
             (trace_of
                (GenerateDefaultTxTypeArgs sender gethtypes.AccessListTxType w))
           = [(sender, txArgs)]
        /\ EvmTxArgs.GasPrice txArgs = Some 1000000000)
  /\ (exists txArgs,
        GenerateDefaultTxTypeArgs sender gethtypes.DynamicFeeTxType w
          = populateEvmTxArgs sender txArgs w
        /\ defaulting_calls
             (trace_of
                (GenerateDefaultTxTypeArgs sender gethtypes.DynamicFeeTxType w))
           = [(sender, txArgs)]
        /\ EvmTxArgs.GasPrice txArgs = None
        /\ EvmTxArgs.GasFeeCap txArgs = None
        /\ EvmTxArgs.GasTipCap txArgs = None).
Proof.
  repeat split.
  - eexists. split; [reflexivity|]. split.
    + change (GenerateDefaultTxTypeArgs sender gethtypes.LegacyTxType w)
        with (populateEvmTxArgs sender
                (EvmTxArgs.set_GasPrice (Some (big_NewInt 1000000000))
                   EvmTxArgs.zero) w).
      apply populateEvmTxArgs_trace.
    + reflexivity.
  - eexists. split; [reflexivity|]. split.
    + change (GenerateDefaultTxTypeArgs sender gethtypes.AccessListTxType w)
        with (populateEvmTxArgs sender
                (EvmTxArgs.set_GasPrice (Some (big_NewInt 1000000000))
                   (EvmTxArgs.set_Accesses
                      (Some [ {| gethtypes.Address := sender;
                                 gethtypes.StorageKeys :=
                                   [ common.array_lit common.HashLength [x00] ]
                              |} ])
                      EvmTxArgs.zero)) w).
      apply populateEvmTxArgs_trace.
    + reflexivity.
  - eexists. split; [reflexivity|]. split.
    + change (GenerateDefaultTxTypeArgs sender gethtypes.DynamicFeeTxType w)
        with (populateEvmTxArgs sender EvmTxArgs.zero w).
      apply populateEvmTxArgs_trace.
    + repeat split.
Qed.

(** C2. With type AccessList the argument record handed to the shared
    defaulting path has an access list of exactly one entry: its address is
    the sender and it has exactly one storage key, the 32 zero bytes. *)
Theorem default_access_list (sender : common.Address) (w : World) :
  exists txArgs,
    GenerateDefaultTxTypeArgs sender gethtypes.AccessListTxType w
      = populateEvmTxArgs sender txArgs w
    /\ defaulting_calls
         (trace_of
            (GenerateDefaultTxTypeArgs sender gethtypes.AccessListTxType w))
       = [(sender, txArgs)]
    /\ EvmTxArgs.Accesses txArgs
       = Some [ {| gethtypes.Address := sender;
                   gethtypes.StorageKeys := [ repeat x00 32 ] |} ].
Proof.
  eexists. split; [reflexivity|]. split.
  - change (GenerateDefaultTxTypeArgs sender gethtypes.AccessListTxType w)
      with (populateEvmTxArgs sender
              (EvmTxArgs.set_GasPrice (Some (big_NewInt 1000000000))
                 (EvmTxArgs.set_Accesses
                    (Some [ {| gethtypes.Address := sender;
                               gethtypes.StorageKeys :=
                                 [ common.array_lit common.HashLength [x00] ]
                            |} ])
                    EvmTxArgs.zero)) w).
    apply populateEvmTxArgs_trace.
  - reflexivity.
Qed.

(** C3. With any other type the function returns the zero argument record
    and the error "tx type not supported"; the world is untouched and the
    trace is empty: no collaborator was called. *)
Theorem unsupported_type (sender : common.Address) (txType : Z) (w : World) :
  txType <> gethtypes.LegacyTxType ->
  txType <> gethtypes.AccessListTxType ->
  txType <> gethtypes.DynamicFeeTxType ->
  GenerateDefaultTxTypeArgs sender txType w
  = ((EvmTxArgs.zero, Some (errors_New "tx type not supported")), w, []).
Proof.
  intros Hl Ha Hd. unfold GenerateDefaultTxTypeArgs.
  apply Z.eqb_neq in Hl, Ha, Hd. now rewrite Hd, Ha, Hl.
Qed.

End Default_args.

Lemma unsupported_type_witness :
  GenerateDefaultTxTypeArgs (C := Stub.stub Stub.no_faults)
    (common.BytesToAddress Stub.key) 3 0%nat
  = ((EvmTxArgs.zero, Some (errors_New "tx type not supported")), 0%nat, []).
Proof.
  apply (@unsupported_type (Stub.stub Stub.no_faults)
           (common.BytesToAddress Stub.key) 3 0%nat); discriminate.
Defined.

(** C10. The function takes a sender and a type and nothing else. The
    argument record it hands to the shared defaulting path is the same
    whatever the collaborators and the world are: it is the empty record
    with, for Legacy and AccessList, the gas price 1e9 and, for AccessList,
    the one-entry access list; every other field is empty. There is one such
    call for a supported type and none otherwise. *)
Theorem defaults_unconditional (C1 C2 : Collaborators)
  (sender : common.Address) (txType : Z)
  (w1 : @World C1) (w2 : @World C2) :
  defaulting_calls
    (trace_of (GenerateDefaultTxTypeArgs (C := C1) sender txType w1))
  = defaulting_calls
      (trace_of (GenerateDefaultTxTypeArgs (C := C2) sender txType w2))
  /\ List.length
       (defaulting_calls
          (trace_of (GenerateDefaultTxTypeArgs (C := C1) sender txType w1)))
     = (if (txType =? gethtypes.LegacyTxType)
           || (txType =? gethtypes.AccessListTxType)
           || (txType =? gethtypes.DynamicFeeTxType)
        then 1%nat else 0%nat)
  /\ Forall
       (fun c =>
          fst c = sender
          /\ EvmTxArgs.GasPrice (snd c)
             = (if txType =? gethtypes.DynamicFeeTxType
                then None else Some 1000000000)
          /\ EvmTxArgs.Accesses (snd c)
             = (if txType =? gethtypes.AccessListTxType
                then Some [ {| gethtypes.Address := sender;
                               gethtypes.StorageKeys := [ repeat x00 32 ] |} ]
                else None)
          /\ EvmTxArgs.Nonce (snd c) = 0
          /\ EvmTxArgs.GasLimit (snd c) = 0
          /\ EvmTxArgs.Input (snd c) = []
          /\ EvmTxArgs.GasFeeCap (snd c) = None
          /\ EvmTxArgs.GasTipCap (snd c) = None
          /\ EvmTxArgs.Amount (snd c) = None
          /\ EvmTxArgs.To (snd c) = None)
       (defaulting_calls
          (trace_of (GenerateDefaultTxTypeArgs (C := C1) sender txType w1))).
Proof.
  unfold GenerateDefaultTxTypeArgs.
  destruct (txType =? gethtypes.DynamicFeeTxType) eqn:Hd;
    [| destruct (txType =? gethtypes.AccessListTxType) eqn:Ha;
       [| destruct (txType =? gethtypes.LegacyTxType) eqn:Hl ] ];
    cbv zeta; rewrite ?populateEvmTxArgs_trace.
  - rewrite orb_true_r. repeat split. constructor; [|constructor].
    apply Z.eqb_eq in Hd. subst txType. repeat split.
  - rewrite orb_true_r. repeat split. constructor; [|constructor].
    repeat split.
  - repeat split. constructor; [|constructor]. repeat split.
  - repeat split. constructor.
Qed.

(** ** Gas estimation *)

Section Gas_estimation.

Context {C : Collaborators}.

(** C6. When the serialization fails, the gas is 0, the error is the
    serializer's wrapped as "failed to marshal tx args", the world is
    untouched and the handler's estimation is never called. When the
    handler's estimation fails, the gas is 0, whatever number came with the
    failure, and the error is the handler's wrapped as "failed to estimate
    gas". The two errors always differ, and so do their labels. *)
Theorem estimate_failures (from : option common.Address)
  (txArgs : EvmTxArgs.t) (w : World) :
  (forall bz e,
     marshal (estimate_query from txArgs) = (bz, Some e) ->
     EstimateGasLimit from txArgs w
     = ((0, Some (wrappedError e "failed to marshal tx args")), w,
        [EvMarshal (estimate_query from txArgs) (bz, Some e)])
     /\ estimate_calls (trace_of (EstimateGasLimit from txArgs w)) = [])
  /\ (forall bz res e w1,
        marshal (estimate_query from txArgs) = (bz, None) ->
        estimate_gas bz DefaultGasCap w = ((res, Some e), w1) ->
        EstimateGasLimit from txArgs w
        = ((0, Some (wrappedError e "failed to estimate gas")), w1,
           [EvMarshal (estimate_query from txArgs) (bz, None);
            EvEstimateGas bz DefaultGasCap (res, Some e)]))
  /\ (forall from' txArgs' w' bz e bz' res e' w1,
        marshal (estimate_query from txArgs) = (bz, Some e) ->
        marshal (estimate_query from' txArgs') = (bz', None) ->
        estimate_gas bz' DefaultGasCap w' = ((res, Some e'), w1) ->
        snd (result_of (EstimateGasLimit from txArgs w))
        <> snd (result_of (EstimateGasLimit from' txArgs' w'))
        /\ option_map label (snd (result_of (EstimateGasLimit from txArgs w)))
           = Some (Some "failed to marshal tx args")
        /\ option_map label
             (snd (result_of (EstimateGasLimit from' txArgs' w')))
           = Some (Some "failed to estimate gas")).
Proof.
  assert (Hm : forall bz e,
    marshal (estimate_query from txArgs) = (bz, Some e) ->
    EstimateGasLimit from txArgs w
    = ((0, Some (wrappedError e "failed to marshal tx args")), w,
       [EvMarshal (estimate_query from txArgs) (bz, Some e)])).
  { intros bz e H.
    destruct (EstimateGasLimit_runs from txArgs w) as [? ? H'|? ? ? ? H'|? ? ? H'];
      rewrite H in H'; now inversion H'. }
  assert (He : forall from' txArgs' w' bz res e w1,
    marshal (estimate_query from' txArgs') = (bz, None) ->
    estimate_gas bz DefaultGasCap w' = ((res, Some e), w1) ->
    EstimateGasLimit from' txArgs' w'
    = ((0, Some (wrappedError e "failed to estimate gas")), w1,
       [EvMarshal (estimate_query from' txArgs') (bz, None);
        EvEstimateGas bz DefaultGasCap (res, Some e)])).
  { intros from' txArgs' w' bz res e w1 H1 H2.
    destruct (EstimateGasLimit_runs from' txArgs' w')
      as [? ? H'|? ? ? ? H' H''|? ? ? H' H''];
      rewrite H1 in H'; inversion H'; subst;
      rewrite H2 in H''; now inversion H''. }
  split; [|split].
  - intros bz e H. split; [now apply Hm|]. now rewrite (Hm bz e H).
  - intros bz res e w1. apply He.
  - intros from' txArgs' w' bz e bz' res e' w1 H1 H2 H3.
    rewrite (Hm bz e H1), (He from' txArgs' w' bz' res e' w1 H2 H3).
    cbn. repeat split. discriminate.
Qed.

(** C7. [json.Marshal] has no failing case on the query record, whose
    fields are pointers to a byte slice, to addresses and to an access list:
    that is the hypothesis. Then the value serialized is the query record
    made of the payload, the sender, the recipient and the access list,
    every other field nil, and two argument records that agree on payload,
    recipient and access list give the same query; the handler's estimation
    is called exactly once, with the serialized bytes and the configured gas
    cap; and whenever that call succeeds, the run returns the gas of its
    answer, with no error. *)
Theorem estimate_exactly_once (from : option common.Address)
  (txArgs : EvmTxArgs.t) (w : World) :
  snd (marshal (estimate_query from txArgs)) = None ->
  marshalled (trace_of (EstimateGasLimit from txArgs w))
  = [ {| TransactionArgs.From := from;
         TransactionArgs.To := EvmTxArgs.To txArgs;
         TransactionArgs.Gas := None;
         TransactionArgs.GasPrice := None;
         TransactionArgs.MaxFeePerGas := None;
         TransactionArgs.MaxPriorityFeePerGas := None;
         TransactionArgs.Value := None;
         TransactionArgs.Nonce := None;
         TransactionArgs.Data := Some (EvmTxArgs.Input txArgs);
         TransactionArgs.AccessList := EvmTxArgs.Accesses txArgs |} ]
  /\ (forall txArgs' w',
        EvmTxArgs.Input txArgs' = EvmTxArgs.Input txArgs ->
        EvmTxArgs.To txArgs' = EvmTxArgs.To txArgs ->
        EvmTxArgs.Accesses txArgs' = EvmTxArgs.Accesses txArgs ->
        marshalled (trace_of (EstimateGasLimit from txArgs' w'))
        = marshalled (trace_of (EstimateGasLimit from txArgs w)))
  /\ estimate_calls (trace_of (EstimateGasLimit from txArgs w))
     = [(fst (marshal (estimate_query from txArgs)), DefaultGasCap)]
  /\ (forall res w1,
        estimate_gas (fst (marshal (estimate_query from txArgs)))
          DefaultGasCap w
        = ((res, None), w1) ->
        EstimateGasLimit from txArgs w
        = ((Gas res, None), w1,
           [EvMarshal (estimate_query from txArgs)
              (fst (marshal (estimate_query from txArgs)), None);
            EvEstimateGas (fst (marshal (estimate_query from txArgs)))
              DefaultGasCap (res, None)])).
Proof.
  intros Hok.
  assert (Hq : forall a v,
    marshalled (trace_of (EstimateGasLimit from a v)) = [estimate_query from a]).
  { intros a v. now destruct (EstimateGasLimit_runs from a v). }
  split; [apply Hq|]. split; [|split].
  - intros txArgs' w' Hi Ht Ha. rewrite !Hq. unfold estimate_query.
    now rewrite Hi, Ht, Ha.
  - destruct (EstimateGasLimit_runs from txArgs w)
      as [bz e H'|bz res e w1 H' H''|bz res w1 H' H''];
      rewrite H' in Hok |- *; [discriminate|reflexivity|reflexivity].
  - intros res w1 He.
    destruct (EstimateGasLimit_runs from txArgs w)
      as [bz e H'|bz res' e w1' H' H''|bz res' w1' H' H''];
      rewrite H' in Hok, He |- *; cbn [fst] in He |- *;
      [discriminate| |];
      rewrite He in H''; now inversion H''.
Qed.

End Gas_estimation.

Lemma estimate_failures_witness :
  EstimateGasLimit (C := Stub.stub Stub.with_marshal_failing)
    None Stub.transfer 0%nat
  = ((0, Some (wrappedError (errors_New "json: unsupported value")
                 "failed to marshal tx args")),
     0%nat,
     [EvMarshal (C := Stub.stub Stub.with_marshal_failing)
        (estimate_query None Stub.transfer)
        ([], Some (errors_New "json: unsupported value"))])
  /\ EstimateGasLimit (C := Stub.stub Stub.with_estimation_failing)
       None Stub.transfer 0%nat
     = ((0, Some (wrappedError (errors_New "execution reverted")
                    "failed to estimate gas")),
        0%nat,
        [EvMarshal (C := Stub.stub Stub.with_estimation_failing)
           (estimate_query None Stub.transfer)
           (common.BytesToAddress ["x"%byte], None);
         EvEstimateGas (C := Stub.stub Stub.with_estimation_failing)
           (common.BytesToAddress ["x"%byte]) 25000000
           ({| Gas := 12345 |}, Some (errors_New "execution reverted"))]).
Proof.
  split.
  - apply (proj1 (@estimate_failures (Stub.stub Stub.with_marshal_failing)
                    None Stub.transfer 0%nat)
             [] (errors_New "json: unsupported value")).
    reflexivity.
  - apply (proj1 (proj2 (@estimate_failures
                           (Stub.stub Stub.with_estimation_failing)
                           None Stub.transfer 0%nat))
             (common.BytesToAddress ["x"%byte]) {| Gas := 12345 |}
             (errors_New "execution reverted") 0%nat); reflexivity.
Defined.

Lemma estimate_exactly_once_witness :
  estimate_calls
    (trace_of
       (EstimateGasLimit (C := Stub.stub Stub.no_faults)
          None Stub.transfer 0%nat))
  = [(common.BytesToAddress ["x"%byte], 25000000)]
  /\ EstimateGasLimit (C := Stub.stub Stub.no_faults)
       None Stub.transfer 0%nat
     = ((21320, None), 0%nat,
        [EvMarshal (C := Stub.stub Stub.no_faults)
           (estimate_query None Stub.transfer)
           (common.BytesToAddress ["x"%byte], None);
         EvEstimateGas (C := Stub.stub Stub.no_faults)
           (common.BytesToAddress ["x"%byte]) 25000000
           ({| Gas := 21320 |}, None)]).
Proof.
  destruct (@estimate_exactly_once (Stub.stub Stub.no_faults)
              None Stub.transfer 0%nat eq_refl) as [_ [_ [Hc Hr]]].
  split.
  - exact Hc.
  - apply (Hr {| Gas := 21320 |} 0%nat). reflexivity.
Defined.

(** ** Building, signing, validating, converting *)

Section Signing.

Context {C : Collaborators}.

(** A signed message without error: defaulting and signing both
    succeeded, and they are the two calls made. *)
Lemma GenerateSignedMsgEthereumTx_ok (privKey : PrivKey)
  (txArgs : EvmTxArgs.t) (w : World)
  (signedMsg : MsgEthereumTx) (w2 : World) (tr : list Event) :
  GenerateSignedMsgEthereumTx privKey txArgs w = ((signedMsg, None), w2, tr) ->
  exists a w1,
    populate (sender_of privKey) txArgs w = ((a, None), w1)
    /\ sign privKey (buildMsgEthereumTx a (sender_of privKey)) w1
       = ((signedMsg, None), w2)
    /\ tr = [EvPopulateEvmTxArgs (sender_of privKey) txArgs (a, None);
             EvSignMsgEthereumTx privKey
               (buildMsgEthereumTx a (sender_of privKey)) (signedMsg, None)].
Proof.
  unfold GenerateSignedMsgEthereumTx, GenerateMsgEthereumTx,
    populateEvmTxArgs, SignMsgEthereumTx, bind, call, ret.
  fold (sender_of privKey).
  destruct (populate (sender_of privKey) txArgs w) as [[a [e|]] w1] eqn:Hp;
    cbn [app]; [discriminate|].
  destruct (sign privKey (buildMsgEthereumTx a (sender_of privKey)) w1)
    as [[m [e|]] w3] eqn:Hs; cbn [app]; intros H; inversion H; subst.
  now exists a, w1.
Qed.

(** C5. Once signing has succeeded, the signed message, and nothing else,
    is validated. If the validation fails, the transaction is nil, the error
    is the validation's wrapped as "failed to validate transaction", and the
    calls made are defaulting, signing and validation: no conversion. If it
    passes, the run ends with the conversion of the signed message. A run
    that ends without error validated the message it signed, and the
    validation passed. *)
Theorem validation_gate (privKey : PrivKey) (txArgs : EvmTxArgs.t) (w : World) :
  (forall signedMsg w1 tr1,
     GenerateSignedMsgEthereumTx privKey txArgs w
     = ((signedMsg, None), w1, tr1) ->
     validations (trace_of (GenerateSignedEthTx privKey txArgs w))
     = [(signedMsg, validate_basic signedMsg)]
     /\ (forall e,
           validate_basic signedMsg = Some e ->
           GenerateSignedEthTx privKey txArgs w
           = ((None, Some (wrappedError e "failed to validate transaction")),
              w1, tr1 ++ [EvValidateBasic signedMsg (Some e)])
           /\ stages (trace_of (GenerateSignedEthTx privKey txArgs w))
              = [Defaulting; Signing; Validation])
     /\ (validate_basic signedMsg = None ->
         forall r w2,
           build_signed signedMsg w1 = (r, w2) ->
           GenerateSignedEthTx privKey txArgs w
           = (r, w2,
              tr1 ++ [EvValidateBasic signedMsg None;
                      EvBuildSignedTx signedMsg r])))
  /\ (forall tx w2 tr,
        GenerateSignedEthTx privKey txArgs w = ((tx, None), w2, tr) ->
        exists signedMsg w1 tr1,
          GenerateSignedMsgEthereumTx privKey txArgs w
          = ((signedMsg, None), w1, tr1)
          /\ validate_basic signedMsg = None
          /\ validations tr = [(signedMsg, None)]).
Proof.
  split.
  - intros signedMsg w1 tr1 H.
    destruct (GenerateSignedMsgEthereumTx_ok _ _ _ _ _ _ H)
      as (a & w0 & Hp & Hs & ->).
    destruct (GenerateSignedEthTx_runs privKey txArgs w)
      as [a' e' w' Hp'|a' w' m' e' w'' Hp' Hs'|a' w' m' w'' e' Hp' Hs' Hv'
         |a' w' m' w'' r' w3 Hp' Hs' Hv' Hb'];
      rewrite Hp in Hp'; inversion Hp'; subst;
      rewrite Hs in Hs'; inversion Hs'; subst; rewrite Hv'.
    + split; [reflexivity|]. split; [|discriminate].
      intros e He. inversion He; subst. split; reflexivity.
    + split; [reflexivity|]. split; [discriminate|].
      intros _ r w2 Hr. rewrite Hb' in Hr. inversion Hr; subst. reflexivity.
  - intros tx w2 tr H.
    destruct (GenerateSignedEthTx_runs privKey txArgs w)
      as [? ? ? Hp|? ? ? ? ? Hp Hs|? ? ? ? ? Hp Hs Hv|a w1 m w3 r w4 Hp Hs Hv Hb];
      inversion H; subst.
    exists m, w3.
    eexists. split; [|split; [exact Hv|reflexivity]].
    unfold GenerateSignedMsgEthereumTx, GenerateMsgEthereumTx,
      populateEvmTxArgs, SignMsgEthereumTx, bind, call, ret.
    fold (sender_of privKey). rewrite Hp. cbn [app]. rewrite Hs. reflexivity.
Qed.


End Signing.

Lemma validation_gate_witness :
  result_of
    (GenerateSignedEthTx (C := Stub.stub Stub.no_faults)
       Stub.key Stub.negative_transfer 0%nat)
  = (None,
     Some (wrappedError (errors_New "amount cannot be negative")
             "failed to validate transaction"))
  /\ stages
       (trace_of
          (GenerateSignedEthTx (C := Stub.stub Stub.no_faults)
             Stub.key Stub.negative_transfer 0%nat))
     = [Defaulting; Signing; Validation]
  /\ (exists signedMsg w1 tr1,
        GenerateSignedMsgEthereumTx (C := Stub.stub Stub.no_faults)
          Stub.key Stub.transfer 0%nat
        = ((signedMsg, None), w1, tr1)
        /\ Stub.stub_validate signedMsg = None
        /\ validations
             (trace_of
                (GenerateSignedEthTx (C := Stub.stub Stub.no_faults)
                   Stub.key Stub.transfer 0%nat))
           = [(signedMsg, None)]).
Proof.
  split; [|split].
  - edestruct (proj1 (@validation_gate (Stub.stub Stub.no_faults)
                        Stub.key Stub.negative_transfer 0%nat))
      as [_ [Hf _]]; [reflexivity|].
    edestruct Hf as [Hr _]; [reflexivity|].
    rewrite Hr. reflexivity.
  - edestruct (proj1 (@validation_gate (Stub.stub Stub.no_faults)
                        Stub.key Stub.negative_transfer 0%nat))
      as [_ [Hf _]]; [reflexivity|].
    edestruct Hf as [_ Hs]; [reflexivity|].
    exact Hs.
  - eapply (proj2 (@validation_gate (Stub.stub Stub.no_faults)
                     Stub.key Stub.transfer 0%nat)).
    reflexivity.
Defined.


(** ** The two pipelines *)

Section Pipelines.

Context {C : Collaborators}.

(** C4, amended. [GenerateSignedEthTx] calls defaulting, signing,
    validation and conversion, in this order; [GenerateGethCoreMsg] calls
    defaulting, signing, the base-fee query, the chain-id lookup and the
    conversion, in this order, and validates nothing. In both, a call that
    fails is the last call made. A failure of defaulting, signing,
    validation or the base-fee query gives a nil result and the error
    wrapped under the labels of the step; the result of the conversion,
    value and error, is returned as the conversion gave it, unwrapped. *)
Theorem pipeline_order (privKey : PrivKey) (txArgs : EvmTxArgs.t) (w : World) :
  (is_prefix (stages (trace_of (GenerateSignedEthTx privKey txArgs w)))
     signed_tx_pipeline = true
   /\ ordering_guarantee (stages (trace_of (GenerateSignedEthTx privKey txArgs w)))
      = true
   /\ only_last_may_fail (trace_of (GenerateSignedEthTx privKey txArgs w))
      = true
   /\ match last_event (trace_of (GenerateSignedEthTx privKey txArgs w)) with
      | Some (EvPopulateEvmTxArgs _ _ (_, Some err)) =>
        result_of (GenerateSignedEthTx privKey txArgs w)
        = (None,
           Some (wrappedError
                   (wrappedError
                      (wrappedError err "failed to populate tx args")
                      "failed to create ethereum tx")
                   "failed to generate signed MsgEthereumTx"))
      | Some (EvSignMsgEthereumTx _ _ (_, Some err)) =>
        result_of (GenerateSignedEthTx privKey txArgs w)
        = (None,
           Some (wrappedError err "failed to generate signed MsgEthereumTx"))
      | Some (EvValidateBasic _ (Some err)) =>
        result_of (GenerateSignedEthTx privKey txArgs w)
        = (None, Some (wrappedError err "failed to validate transaction"))
      | Some (EvBuildSignedTx _ res) =>
        result_of (GenerateSignedEthTx privKey txArgs w) = res
      | _ => False
      end)
  /\ (is_prefix (stages (trace_of (GenerateGethCoreMsg privKey txArgs w)))
        core_msg_pipeline = true
      /\ validations (trace_of (GenerateGethCoreMsg privKey txArgs w)) = []
      /\ only_last_may_fail (trace_of (GenerateGethCoreMsg privKey txArgs w))
         = true
      /\ match last_event (trace_of (GenerateGethCoreMsg privKey txArgs w)) with
         | Some (EvPopulateEvmTxArgs _ _ (_, Some err)) =>
           result_of (GenerateGethCoreMsg privKey txArgs w)
           = (None,
              Some (wrappedError
                      (wrappedError err "failed to populate tx args")
                      "failed to generate ethereum tx"))
         | Some (EvSignMsgEthereumTx _ _ (_, Some err)) =>
           result_of (GenerateGethCoreMsg privKey txArgs w)
           = (None, Some (wrappedError err "failed to sign ethereum tx"))
         | Some (EvGetBaseFee (_, Some err)) =>
           result_of (GenerateGethCoreMsg privKey txArgs w)
           = (None, Some (wrappedError err "failed to get base fee"))
         | Some (EvAsMessage _ _ _ res) =>
           result_of (GenerateGethCoreMsg privKey txArgs w) = res
         | _ => False
         end).
Proof.
  split.
  - destruct (GenerateSignedEthTx_runs privKey txArgs w);
      repeat split; reflexivity.
  - destruct (GenerateGethCoreMsg_runs privKey txArgs w);
      repeat split; reflexivity.
Qed.

(** C9, amended. [GenerateMsgEthereumTx] returns the zero message with
    every error. [GenerateSignedEthTx] and [GenerateGethCoreMsg] either stop
    before the conversion, with a nil value and an error, or return the pair
    of the conversion, which is their last call, unchanged; so no value
    comes with an error as long as the conversion itself returns none with
    its errors. *)
Theorem no_partial_result (privKey : PrivKey) (txArgs : EvmTxArgs.t)
  (w : World) :
  (snd (result_of (GenerateMsgEthereumTx privKey txArgs w)) <> None ->
   fst (result_of (GenerateMsgEthereumTx privKey txArgs w)) = MsgEthereumTx_zero)
  /\ match last_event (trace_of (GenerateSignedEthTx privKey txArgs w)) with
     | Some (EvBuildSignedTx _ res) =>
       result_of (GenerateSignedEthTx privKey txArgs w) = res
     | _ =>
       fst (result_of (GenerateSignedEthTx privKey txArgs w)) = None
       /\ snd (result_of (GenerateSignedEthTx privKey txArgs w)) <> None
     end
  /\ match last_event (trace_of (GenerateGethCoreMsg privKey txArgs w)) with
     | Some (EvAsMessage _ _ _ res) =>
       result_of (GenerateGethCoreMsg privKey txArgs w) = res
     | _ =>
       fst (result_of (GenerateGethCoreMsg privKey txArgs w)) = None
       /\ snd (result_of (GenerateGethCoreMsg privKey txArgs w)) <> None
     end
  /\ ((forall msg v, exclusive (fst (build_signed msg v))) ->
      exclusive (result_of (GenerateSignedEthTx privKey txArgs w)))
  /\ ((forall msg signer baseFee, exclusive (as_message msg signer baseFee)) ->
      exclusive (result_of (GenerateGethCoreMsg privKey txArgs w))).
Proof.
  split; [|split; [|split; [|split]]].
  - destruct (GenerateMsgEthereumTx_runs privKey txArgs w); cbn.
    + reflexivity.
    + intros Hn. now elim Hn.
  - destruct (GenerateSignedEthTx_runs privKey txArgs w); cbn;
      try (split; [reflexivity|discriminate]); reflexivity.
  - destruct (GenerateGethCoreMsg_runs privKey txArgs w); cbn;
      try (split; [reflexivity|discriminate]); reflexivity.
  - intros Hx.
    destruct (GenerateSignedEthTx_runs privKey txArgs w)
      as [| | |a w1 m w2 r w3 Hp Hs Hv Hb];
      try (intros _; reflexivity).
    specialize (Hx m w2). rewrite Hb in Hx. exact Hx.
  - intros Hx.
    destruct (GenerateGethCoreMsg_runs privKey txArgs w);
      try (intros _; reflexivity).
    apply Hx.
Qed.

End Pipelines.

(** C4 as stated fails. [GenerateGethCoreMsg] converts a message that was
    never validated, and [GenerateSignedEthTx] returns the error of a
    failed conversion as it is, under no label. *)
Lemma pipeline_order_counterexample :
  stages
    (trace_of
       (GenerateGethCoreMsg (C := Stub.stub Stub.no_faults)
          Stub.key Stub.transfer 0%nat))
  = [Defaulting; Signing; BaseFeeQuery; ChainIDLookup; Conversion]
  /\ ordering_guarantee
       (stages
          (trace_of
             (GenerateGethCoreMsg (C := Stub.stub Stub.no_faults)
                Stub.key Stub.transfer 0%nat)))
     = false
  /\ result_of
       (GenerateSignedEthTx (C := Stub.stub Stub.with_builder_failing)
          Stub.key Stub.transfer 0%nat)
     = (None, Some (errors_New "unsupported builder"))
  /\ option_map label
       (snd
          (result_of
             (GenerateSignedEthTx (C := Stub.stub Stub.with_builder_failing)
                Stub.key Stub.transfer 0%nat)))
     = Some None.
Proof. repeat split. Qed.

Lemma pipeline_order_witness :
  ordering_guarantee
    (stages
       (trace_of
          (GenerateSignedEthTx (C := Stub.stub Stub.no_faults)
             Stub.key Stub.transfer 0%nat)))
  = true
  /\ validations
       (trace_of
          (GenerateGethCoreMsg (C := Stub.stub Stub.no_faults)
             Stub.key Stub.transfer 0%nat))
     = [].
Proof.
  destruct (@pipeline_order (Stub.stub Stub.no_faults)
              Stub.key Stub.transfer 0%nat) as [[_ [Ho _]] [_ [Hv _]]].
  split; [exact Ho|exact Hv].
Defined.

(** C9 as stated fails: when the recovery of the sender fails, the
    conversion hands back the message it built together with the error, and
    [GenerateGethCoreMsg] returns both. *)
Lemma no_partial_result_counterexample :
  result_of
    (GenerateGethCoreMsg (C := Stub.stub Stub.with_recovery_failing)
       Stub.key Stub.transfer 0%nat)
  = (Some {| Stub.core_msg :=
               {| Stub.args := Stub.fill Stub.transfer 0;
                  Stub.from := common.BytesToAddress Stub.key;
                  Stub.signature := Some Stub.key |};
             Stub.core_chain := Some 9000;
             Stub.core_base_fee := Some 7 |},
     Some (errors_New "invalid chain id for signer")).
Proof. reflexivity. Qed.

Lemma no_partial_result_witness :
  exclusive
    (result_of
       (GenerateSignedEthTx (C := Stub.stub Stub.with_builder_failing)
          Stub.key Stub.transfer 0%nat))
  /\ exclusive
       (result_of
          (GenerateGethCoreMsg (C := Stub.stub Stub.with_base_fee_failing)
             Stub.key Stub.transfer 0%nat))
  /\ fst (result_of
            (GenerateMsgEthereumTx (C := Stub.stub Stub.with_defaulting_failing)
               Stub.key Stub.transfer 0%nat))
     = Stub.Msg_zero.
Proof.
  split; [|split].
  - apply (proj1 (proj2 (proj2 (proj2
             (@no_partial_result (Stub.stub Stub.with_builder_failing)
                Stub.key Stub.transfer 0%nat))))).
    intros msg v. unfold exclusive. cbn. reflexivity.
  - apply (proj2 (proj2 (proj2 (proj2
             (@no_partial_result (Stub.stub Stub.with_base_fee_failing)
                Stub.key Stub.transfer 0%nat))))).
    intros msg signer baseFee H. now elim H.
  - apply (proj1 (@no_partial_result (Stub.stub Stub.with_defaulting_failing)
                    Stub.key Stub.transfer 0%nat)).
    discriminate.
Defined.

(** ** The scenarios of the test double *)

(** Sender, type Legacy, nothing set: the gas price is 1e9, the nonce and
    the gas limit come from the collaborator. *)
Example legacy_defaults_on_stub :
  result_of
    (GenerateDefaultTxTypeArgs (C := Stub.stub Stub.no_faults)
       (common.BytesToAddress Stub.key) gethtypes.LegacyTxType 4%nat)
  = ({| EvmTxArgs.Nonce := 4; EvmTxArgs.GasLimit := 21000;
        EvmTxArgs.Input := [];
        EvmTxArgs.GasFeeCap := None; EvmTxArgs.GasPrice := Some 1000000000;
        EvmTxArgs.Amount := None; EvmTxArgs.GasTipCap := None;
        EvmTxArgs.To := None; EvmTxArgs.Accesses := None |},
     None).
Proof. reflexivity. Qed.

(** A failing defaulting path: its error comes back as it is, with the
    record the path returned. *)
Example defaulting_failure_on_stub :
  GenerateDefaultTxTypeArgs (C := Stub.stub Stub.with_defaulting_failing)
    (common.BytesToAddress Stub.key) gethtypes.DynamicFeeTxType 4%nat
  = ((EvmTxArgs.zero, Some (errors_New "account not found")), 4%nat,
     [EvPopulateEvmTxArgs (C := Stub.stub Stub.with_defaulting_failing)
        (common.BytesToAddress Stub.key) EvmTxArgs.zero
        (EvmTxArgs.zero, Some (errors_New "account not found"))]).
Proof. reflexivity. Qed.

(** A successful estimation returns the handler's number. *)
Example estimate_on_stub :
  result_of
    (EstimateGasLimit (C := Stub.stub Stub.no_faults)
       (Some (common.BytesToAddress Stub.key)) Stub.transfer 0%nat)
  = (21640, None).
Proof. reflexivity. Qed.

(** The address of a key: 20 bytes, the key's bytes last. *)
Example sender_of_stub_key :
  sender_of (C := Stub.stub Stub.no_faults) Stub.key
  = repeat x00 17 ++ Stub.key.
Proof. reflexivity. Qed.

(** * Further properties of build.go *)

Section Signed_message.

Context {C : Collaborators}.

(** X1. [GenerateSignedMsgEthereumTx]: when the defaulting fails, the
    message is the zero message, the error is the defaulting's under the
    labels "failed to populate tx args" and "failed to create ethereum tx",
    and the signer is not called. Otherwise the signer is called on the
    message built from the defaulted arguments, and its pair comes back as
    it is: a signing error has no label and comes with the message the
    signer returned. *)
Theorem signed_msg_outcomes (privKey : PrivKey) (txArgs : EvmTxArgs.t)
  (w : World) :
  (forall a e w1,
     populate (sender_of privKey) txArgs w = ((a, Some e), w1) ->
     GenerateSignedMsgEthereumTx privKey txArgs w
     = ((MsgEthereumTx_zero,
         Some (wrappedError
                 (wrappedError e "failed to populate tx args")
                 "failed to create ethereum tx")),
        w1,
        [EvPopulateEvmTxArgs (sender_of privKey) txArgs (a, Some e)]))
  /\ (forall a w1 r w2,
        populate (sender_of privKey) txArgs w = ((a, None), w1) ->
        sign privKey (buildMsgEthereumTx a (sender_of privKey)) w1 = (r, w2) ->
        GenerateSignedMsgEthereumTx privKey txArgs w
        = (r, w2,
           [EvPopulateEvmTxArgs (sender_of privKey) txArgs (a, None);
            EvSignMsgEthereumTx privKey
              (buildMsgEthereumTx a (sender_of privKey)) r])).
Proof.
  split.
  - intros a e w1 Hp.
    destruct (GenerateSignedMsgEthereumTx_runs privKey txArgs w)
      as [a' e' w1' Hp'|a' w1' r' w2' Hp' Hs'];
      rewrite Hp in Hp'; now inversion Hp'.
  - intros a w1 r w2 Hp Hs.
    destruct (GenerateSignedMsgEthereumTx_runs privKey txArgs w)
      as [a' e' w1' Hp'|a' w1' r' w2' Hp' Hs'];
      rewrite Hp in Hp'; inversion Hp'; subst.
    rewrite Hs in Hs'. now inversion Hs'.
Qed.

End Signed_message.

Lemma signed_msg_outcomes_witness :
  GenerateSignedMsgEthereumTx (C := Stub.stub Stub.with_defaulting_failing)
    Stub.key Stub.transfer 0%nat
  = ((Stub.Msg_zero,
      Some (wrappedError
              (wrappedError (errors_New "account not found")
                 "failed to populate tx args")
              "failed to create ethereum tx")),
     0%nat,
     [EvPopulateEvmTxArgs (C := Stub.stub Stub.with_defaulting_failing)
        (common.BytesToAddress Stub.key) Stub.transfer
        (EvmTxArgs.zero, Some (errors_New "account not found"))])
  /\ result_of
       (GenerateSignedMsgEthereumTx (C := Stub.stub Stub.no_faults)
          Stub.key Stub.transfer 0%nat)
     = ({| Stub.args := Stub.fill Stub.transfer 0;
           Stub.from := common.BytesToAddress Stub.key;
           Stub.signature := Some Stub.key |},
        None).
Proof.
  split.
  - apply (proj1 (@signed_msg_outcomes
                    (Stub.stub Stub.with_defaulting_failing)
                    Stub.key Stub.transfer 0%nat)).
    reflexivity.
  - erewrite (proj2 (@signed_msg_outcomes (Stub.stub Stub.no_faults)
                       Stub.key Stub.transfer 0%nat))
      by reflexivity.
    reflexivity.
Defined.

Section Error_reporting.

Context {C : Collaborators}.

Lemma chain_self (e : Err) : In e (chain e).
Proof. destruct e; now left. Qed.

Lemma chain_wrapped (e0 e : Err) (msg : string) :
  In e0 (chain e) -> In e0 (chain (wrappedError e msg)).
Proof. intros H. now right. Qed.

(** X2. No entry point swallows an error, and none invents one: it
    returns a non-nil error exactly when one of the calls it made failed.
    The one exception is the unsupported type of
    [GenerateDefaultTxTypeArgs], an error raised without any call. *)
Theorem error_iff_a_call_failed (from : option common.Address)
  (sender : common.Address) (txType : Z)
  (privKey : PrivKey) (txArgs : EvmTxArgs.t) (w : World) :
  is_error (snd (result_of (EstimateGasLimit from txArgs w)))
  = existsb failed (trace_of (EstimateGasLimit from txArgs w))
  /\ is_error (snd (result_of (GenerateMsgEthereumTx privKey txArgs w)))
     = existsb failed (trace_of (GenerateMsgEthereumTx privKey txArgs w))
  /\ is_error (snd (result_of (GenerateSignedMsgEthereumTx privKey txArgs w)))
     = existsb failed (trace_of (GenerateSignedMsgEthereumTx privKey txArgs w))
  /\ is_error (snd (result_of (GenerateSignedEthTx privKey txArgs w)))
     = existsb failed (trace_of (GenerateSignedEthTx privKey txArgs w))
  /\ is_error (snd (result_of (GenerateGethCoreMsg privKey txArgs w)))
     = existsb failed (trace_of (GenerateGethCoreMsg privKey txArgs w))
  /\ is_error (snd (result_of (GenerateDefaultTxTypeArgs sender txType w)))
     = existsb failed (trace_of (GenerateDefaultTxTypeArgs sender txType w))
       || negb ((txType =? gethtypes.LegacyTxType)
                || (txType =? gethtypes.AccessListTxType)
                || (txType =? gethtypes.DynamicFeeTxType)).
Proof.
  repeat apply conj.
  - now destruct (EstimateGasLimit_runs from txArgs w).
  - now destruct (GenerateMsgEthereumTx_runs privKey txArgs w).
  - destruct (GenerateSignedMsgEthereumTx_runs privKey txArgs w)
      as [|a w1 [m [e|]] w2]; reflexivity.
  - destruct (GenerateSignedEthTx_runs privKey txArgs w)
      as [| | |a w1 m w2 [tx [e|]] w3]; reflexivity.
  - destruct (GenerateGethCoreMsg_runs privKey txArgs w)
      as [| | |a w1 m w2 b w3 chainID w4]; try reflexivity.
    unfold result_of, trace_of, failed. cbn.
    now destruct (as_message m (LatestSignerForChainID chainID)
                    (BigInt (BaseFee b))) as [v [e|]].
  - unfold GenerateDefaultTxTypeArgs, populateEvmTxArgs, call, ret.
    destruct (txType =? gethtypes.DynamicFeeTxType);
      [| destruct (txType =? gethtypes.AccessListTxType);
         [| destruct (txType =? gethtypes.LegacyTxType) ] ];
      cbv zeta;
      try match goal with
          | |- context [populate ?s ?a ?v] =>
            destruct (populate s a v) as [[r [e|]] w1]
          end;
      cbn; rewrite ?orb_true_r; reflexivity.
Qed.

Ltac in_chain := cbn; repeat (first [apply chain_self | right]).

(** X3. The error of a failed call is never lost: it can be found in
    the chain of the error the entry point returns, under the labels the
    entry point added. *)
Theorem failing_call_in_chain (from : option common.Address)
  (privKey : PrivKey) (txArgs : EvmTxArgs.t) (w : World) :
  reports_failures (EstimateGasLimit from txArgs w)
  /\ reports_failures (GenerateMsgEthereumTx privKey txArgs w)
  /\ reports_failures (GenerateSignedMsgEthereumTx privKey txArgs w)
  /\ reports_failures (GenerateSignedEthTx privKey txArgs w)
  /\ reports_failures (GenerateGethCoreMsg privKey txArgs w).
Proof.
  assert (Hw : forall (e0 : Err) (l : error),
            l = Some e0 -> exists e, l = Some e /\ In e0 (chain e)).
  { intros e0 l ->. exists e0. split; [reflexivity|apply chain_self]. }
  unfold reports_failures. repeat apply conj; intros ev e0 Hin Hf.
  - destruct (EstimateGasLimit_runs from txArgs w);
      cbn in Hin; repeat destruct Hin as [<-|Hin]; try contradiction;
      cbn in Hf; try discriminate; inversion Hf; subst;
      eexists; (split; [reflexivity|]); in_chain.
  - destruct (GenerateMsgEthereumTx_runs privKey txArgs w);
      cbn in Hin; repeat destruct Hin as [<-|Hin]; try contradiction;
      cbn in Hf; try discriminate; inversion Hf; subst;
      eexists; (split; [reflexivity|]); in_chain.
  - destruct (GenerateSignedMsgEthereumTx_runs privKey txArgs w);
      cbn in Hin; repeat destruct Hin as [<-|Hin]; try contradiction;
      cbn in Hf; try discriminate.
    + inversion Hf; subst. eexists; (split; [reflexivity|]); in_chain.
    + now apply Hw.
  - destruct (GenerateSignedEthTx_runs privKey txArgs w);
      cbn in Hin; repeat destruct Hin as [<-|Hin]; try contradiction;
      cbn in Hf; try discriminate;
      try (now apply Hw);
      inversion Hf; subst; eexists; (split; [reflexivity|]); in_chain.
  - destruct (GenerateGethCoreMsg_runs privKey txArgs w);
      cbn in Hin; repeat destruct Hin as [<-|Hin]; try contradiction;
      cbn in Hf; try discriminate;
      try (now apply Hw);
      inversion Hf; subst; eexists; (split; [reflexivity|]); in_chain.
Qed.

End Error_reporting.

Lemma failing_call_in_chain_witness :
  exists e,
    snd (result_of
           (GenerateSignedEthTx (C := Stub.stub Stub.with_defaulting_failing)
              Stub.key Stub.transfer 0%nat))
    = Some e
    /\ In (errors_New "account not found") (chain e).
Proof.
  apply (proj1 (proj2 (proj2 (proj2
           (@failing_call_in_chain (Stub.stub Stub.with_defaulting_failing)
              None Stub.key Stub.transfer 0%nat))))
           (EvPopulateEvmTxArgs (C := Stub.stub Stub.with_defaulting_failing)
              (common.BytesToAddress Stub.key) Stub.transfer
              (EvmTxArgs.zero, Some (errors_New "account not found")))
           (errors_New "account not found")).
  - left. reflexivity.
  - reflexivity.
Defined.

Section Composition.

Context {C : Collaborators}.

Ltac unfold_entry_points :=
  unfold GenerateSignedEthTx, GenerateGethCoreMsg,
    GenerateSignedMsgEthereumTx, GenerateMsgEthereumTx,
    populateEvmTxArgs, SignMsgEthereumTx, buildSignedTx,
    GetBaseFee, GetEIP155ChainID, ValidateBasic, AsMessage,
    bind, call, call_pure, ret.

(** X4. Started from the same key, arguments and world, the entry
    points make the same first calls with the same answers: the one call of
    [GenerateMsgEthereumTx] opens the run of [GenerateSignedMsgEthereumTx],
    whose calls open the runs of [GenerateSignedEthTx] and of
    [GenerateGethCoreMsg]. So the message the first converts into a signed
    transaction and the message the second converts into a core message are
    one and the same signed message. *)
Theorem pipelines_share_signing (privKey : PrivKey) (txArgs : EvmTxArgs.t)
  (w : World) :
  firstn 1 (trace_of (GenerateSignedMsgEthereumTx privKey txArgs w))
  = trace_of (GenerateMsgEthereumTx privKey txArgs w)
  /\ firstn 2 (trace_of (GenerateSignedEthTx privKey txArgs w))
     = trace_of (GenerateSignedMsgEthereumTx privKey txArgs w)
  /\ firstn 2 (trace_of (GenerateGethCoreMsg privKey txArgs w))
     = trace_of (GenerateSignedMsgEthereumTx privKey txArgs w)
  /\ (forall m r m' signer baseFee r',
        In (EvBuildSignedTx m r)
           (trace_of (GenerateSignedEthTx privKey txArgs w)) ->
        In (EvAsMessage m' signer baseFee r')
           (trace_of (GenerateGethCoreMsg privKey txArgs w)) ->
        m = m'
        /\ result_of (GenerateSignedMsgEthereumTx privKey txArgs w)
           = (m, None)).
Proof.
  unfold_entry_points.
  destruct (populate (common.BytesToAddress (PubKey_Address_Bytes privKey))
              txArgs w) as [[a [e|]] w1]; cbn [app].
  { split; [|split; [|split]]; try reflexivity.
    intros m r m' signer baseFee r' H. cbn in H.
    destruct H as [H|H]; [discriminate|contradiction]. }
  destruct (sign privKey
              (buildMsgEthereumTx a
                 (common.BytesToAddress (PubKey_Address_Bytes privKey))) w1)
    as [[sm [e|]] w2]; cbn [app].
  { split; [|split; [|split]]; try reflexivity.
    intros m r m' signer baseFee r' H. cbn in H.
    repeat destruct H as [H|H]; try discriminate; contradiction. }
  destruct (validate_basic sm) as [e|]; cbn [app];
    [| destruct (build_signed sm w2) as [r0 w3]; cbn [app] ];
    (destruct (get_base_fee w2) as [[b [e'|]] w4]; cbn [app];
     [| destruct (get_chain_id w4) as [chainID w5]; cbn [app] ]);
    (split; [|split; [|split]]; try reflexivity;
     intros m r m' signer baseFee r' H H'; cbn in H, H';
     repeat destruct H as [H|H]; try discriminate; try contradiction;
     repeat destruct H' as [H'|H']; try discriminate; try contradiction;
     inversion H; inversion H'; subst; split; reflexivity).
Qed.

(** X5. Whatever the outcome, each of the four entry points that take a
    key makes exactly one call to the defaulting path, on the address of the
    key and on the arguments exactly as the caller gave them; it never
    serializes a query and never calls the gas estimation itself. *)
Theorem one_defaulting_call (privKey : PrivKey) (txArgs : EvmTxArgs.t)
  (w : World) :
  (defaulting_calls (trace_of (GenerateMsgEthereumTx privKey txArgs w))
   = [(sender_of privKey, txArgs)]
   /\ defaulting_calls
        (trace_of (GenerateSignedMsgEthereumTx privKey txArgs w))
      = [(sender_of privKey, txArgs)]
   /\ defaulting_calls (trace_of (GenerateSignedEthTx privKey txArgs w))
      = [(sender_of privKey, txArgs)]
   /\ defaulting_calls (trace_of (GenerateGethCoreMsg privKey txArgs w))
      = [(sender_of privKey, txArgs)])
  /\ (marshalled (trace_of (GenerateMsgEthereumTx privKey txArgs w)) = []
      /\ marshalled (trace_of (GenerateSignedMsgEthereumTx privKey txArgs w))
         = []
      /\ marshalled (trace_of (GenerateSignedEthTx privKey txArgs w)) = []
      /\ marshalled (trace_of (GenerateGethCoreMsg privKey txArgs w)) = [])
  /\ (estimate_calls (trace_of (GenerateMsgEthereumTx privKey txArgs w)) = []
      /\ estimate_calls
           (trace_of (GenerateSignedMsgEthereumTx privKey txArgs w)) = []
      /\ estimate_calls (trace_of (GenerateSignedEthTx privKey txArgs w)) = []
      /\ estimate_calls (trace_of (GenerateGethCoreMsg privKey txArgs w)) = []).
Proof.
  destruct (GenerateMsgEthereumTx_runs privKey txArgs w);
    destruct (GenerateSignedMsgEthereumTx_runs privKey txArgs w);
    destruct (GenerateSignedEthTx_runs privKey txArgs w);
    destruct (GenerateGethCoreMsg_runs privKey txArgs w);
    repeat split.
Qed.

(** X6. A wrapper that sees its inner entry point fail stops there: it
    makes no call of its own, leaves the world as the inner run left it,
    drops the value that came with the error and puts exactly one label on
    the error. [GenerateSignedMsgEthereumTx] and [GenerateGethCoreMsg] do so
    over [GenerateMsgEthereumTx], [GenerateSignedEthTx] over
    [GenerateSignedMsgEthereumTx]. *)
Theorem wrappers_add_one_label (privKey : PrivKey) (txArgs : EvmTxArgs.t)
  (w : World) :
  (forall msg e w1 tr,
     GenerateMsgEthereumTx privKey txArgs w = ((msg, Some e), w1, tr) ->
     GenerateSignedMsgEthereumTx privKey txArgs w
     = ((MsgEthereumTx_zero,
         Some (wrappedError e "failed to create ethereum tx")), w1, tr)
     /\ GenerateGethCoreMsg privKey txArgs w
        = ((None, Some (wrappedError e "failed to generate ethereum tx")),
           w1, tr))
  /\ (forall msg e w1 tr,
        GenerateSignedMsgEthereumTx privKey txArgs w
        = ((msg, Some e), w1, tr) ->
        GenerateSignedEthTx privKey txArgs w
        = ((None,
            Some (wrappedError e "failed to generate signed MsgEthereumTx")),
           w1, tr)).
Proof.
  split.
  - intros msg e w1 tr H.
    unfold GenerateSignedMsgEthereumTx, GenerateGethCoreMsg, bind.
    rewrite H. unfold ret. cbn [errorsmod_Wrap]. now rewrite app_nil_r.
  - intros msg e w1 tr H.
    unfold GenerateSignedEthTx, bind.
    rewrite H. unfold ret. cbn [errorsmod_Wrap]. now rewrite app_nil_r.
Qed.

End Composition.

Lemma pipelines_share_signing_witness :
  result_of
    (GenerateSignedMsgEthereumTx (C := Stub.stub Stub.no_faults)
       Stub.key Stub.transfer 0%nat)
  = ({| Stub.args := Stub.fill Stub.transfer 0;
        Stub.from := common.BytesToAddress Stub.key;
        Stub.signature := Some Stub.key |},
     None).
Proof.
  edestruct (proj2 (proj2 (proj2
               (@pipelines_share_signing (Stub.stub Stub.no_faults)
                  Stub.key Stub.transfer 0%nat)))) as [_ Hr];
    [ do 3 right; left; reflexivity
    | do 4 right; left; reflexivity
    | exact Hr ].
Defined.

Lemma wrappers_add_one_label_witness :
  GenerateGethCoreMsg (C := Stub.stub Stub.with_defaulting_failing)
    Stub.key Stub.transfer 0%nat
  = ((None,
      Some (wrappedError
              (wrappedError (errors_New "account not found")
                 "failed to populate tx args")
              "failed to generate ethereum tx")),
     0%nat,
     [EvPopulateEvmTxArgs (C := Stub.stub Stub.with_defaulting_failing)
        (common.BytesToAddress Stub.key) Stub.transfer
        (EvmTxArgs.zero, Some (errors_New "account not found"))])
  /\ result_of
       (GenerateSignedEthTx (C := Stub.stub Stub.with_signing_failing)
          Stub.key Stub.transfer 0%nat)
     = (None,
        Some (wrappedError (errors_New "invalid private key")
                "failed to generate signed MsgEthereumTx")).
Proof.
  split.
  - eapply (proj1 (@wrappers_add_one_label
                     (Stub.stub Stub.with_defaulting_failing)
                     Stub.key Stub.transfer 0%nat)).
    reflexivity.
  - erewrite (proj2 (@wrappers_add_one_label
                       (Stub.stub Stub.with_signing_failing)
                       Stub.key Stub.transfer 0%nat))
      by reflexivity.
    reflexivity.
Defined.

Section Estimation_inputs.

Context {C : Collaborators}.

(** X7. [EstimateGasLimit] reads the payload, the recipient and the
    access list of the arguments and nothing else: two argument records
    that agree on these three give the same run, whatever their nonce, gas
    limit, gas price, fee cap, tip cap and value are. *)
Theorem estimate_reads_three_fields (from : option common.Address)
  (txArgs txArgs' : EvmTxArgs.t) (w : World) :
  EvmTxArgs.Input txArgs' = EvmTxArgs.Input txArgs ->
  EvmTxArgs.To txArgs' = EvmTxArgs.To txArgs ->
  EvmTxArgs.Accesses txArgs' = EvmTxArgs.Accesses txArgs ->
  EstimateGasLimit from txArgs' w = EstimateGasLimit from txArgs w.
Proof.
  intros Hi Ht Ha.
  assert (Hq : estimate_query from txArgs' = estimate_query from txArgs).
  { unfold estimate_query. now rewrite Hi, Ht, Ha. }
  unfold EstimateGasLimit. now rewrite Hq.
Qed.

(** X8. The three shorter entry points make their calls in a fixed order
    and stop at the first one that fails: [EstimateGasLimit] serializes and
    then estimates, [GenerateMsgEthereumTx] only defaults,
    [GenerateSignedMsgEthereumTx] defaults and then signs; in each, every
    call but the last one made has succeeded. *)
Theorem short_entry_points_stop_at_failure (from : option common.Address)
  (privKey : PrivKey) (txArgs : EvmTxArgs.t) (w : World) :
  (is_prefix (stages (trace_of (EstimateGasLimit from txArgs w)))
     [Serialization; Estimation] = true
   /\ only_last_may_fail (trace_of (EstimateGasLimit from txArgs w)) = true
   /\ (List.length (trace_of (EstimateGasLimit from txArgs w)) = 2%nat
       \/ existsb failed (trace_of (EstimateGasLimit from txArgs w)) = true))
  /\ (stages (trace_of (GenerateMsgEthereumTx privKey txArgs w))
      = [Defaulting])
  /\ (is_prefix
        (stages (trace_of (GenerateSignedMsgEthereumTx privKey txArgs w)))
        [Defaulting; Signing] = true
      /\ only_last_may_fail
           (trace_of (GenerateSignedMsgEthereumTx privKey txArgs w)) = true
      /\ (List.length
            (trace_of (GenerateSignedMsgEthereumTx privKey txArgs w)) = 2%nat
          \/ existsb failed
               (trace_of (GenerateSignedMsgEthereumTx privKey txArgs w))
             = true)).
Proof.
  split; [|split].
  - destruct (EstimateGasLimit_runs from txArgs w);
      (split; [reflexivity|split; [reflexivity|]]);
      first [left; reflexivity | right; reflexivity].
  - now destruct (GenerateMsgEthereumTx_runs privKey txArgs w).
  - destruct (GenerateSignedMsgEthereumTx_runs privKey txArgs w);
      (split; [reflexivity|split; [reflexivity|]]);
      first [left; reflexivity | right; reflexivity].
Qed.

End Estimation_inputs.

Lemma estimate_reads_three_fields_witness :
  EstimateGasLimit (C := Stub.stub Stub.no_faults)
    None Stub.negative_transfer 0%nat
  = EstimateGasLimit (C := Stub.stub Stub.no_faults)
      None Stub.transfer 0%nat.
Proof.
  apply (@estimate_reads_three_fields (Stub.stub Stub.no_faults)
           None Stub.transfer Stub.negative_transfer 0%nat); reflexivity.
Defined.

Section Empty_arguments.

Context {C : Collaborators}.

(** X9. Building a message from the empty argument record is the
    DynamicFee defaulting followed by the build: [GenerateMsgEthereumTx] on
    the empty record makes the very call [GenerateDefaultTxTypeArgs] makes
    for the address of the key and the type DynamicFee, leaves the same
    world, fails exactly when it fails, and on success returns the message
    built from the record it returns. *)
Theorem empty_args_are_dynamic_fee_defaults (privKey : PrivKey) (w : World) :
  trace_of (GenerateMsgEthereumTx privKey EvmTxArgs.zero w)
  = trace_of
      (GenerateDefaultTxTypeArgs (sender_of privKey)
         gethtypes.DynamicFeeTxType w)
  /\ world_of (GenerateMsgEthereumTx privKey EvmTxArgs.zero w)
     = world_of
         (GenerateDefaultTxTypeArgs (sender_of privKey)
            gethtypes.DynamicFeeTxType w)
  /\ match
       snd (result_of
              (GenerateDefaultTxTypeArgs (sender_of privKey)
                 gethtypes.DynamicFeeTxType w))
     with
     | Some e =>
       result_of (GenerateMsgEthereumTx privKey EvmTxArgs.zero w)
       = (MsgEthereumTx_zero,
          Some (wrappedError e "failed to populate tx args"))
     | None =>
       result_of (GenerateMsgEthereumTx privKey EvmTxArgs.zero w)
       = (buildMsgEthereumTx
            (fst (result_of
                    (GenerateDefaultTxTypeArgs (sender_of privKey)
                       gethtypes.DynamicFeeTxType w)))
            (sender_of privKey),
          None)
     end.
Proof.
  change (GenerateDefaultTxTypeArgs (sender_of privKey)
            gethtypes.DynamicFeeTxType w)
    with (populateEvmTxArgs (sender_of privKey) EvmTxArgs.zero w).
  unfold GenerateMsgEthereumTx, populateEvmTxArgs, bind, call, ret.
  fold (sender_of privKey).
  destruct (populate (sender_of privKey) EvmTxArgs.zero w) as [[a [e|]] w1];
    repeat split.
Qed.

End Empty_arguments.
